(** * Exercise tracker: the request handlers of [index.js] over a model of
    the document store.

    The handlers are the four route callbacks of [index.js]:
    - [POST /api/users]                 ([createOrGetUser]),
    - [GET  /api/users]                 ([listUsers]),
    - [POST /api/users/:_id/exercises]  ([appendExercise]),
    - [GET  /api/users/:_id/logs]       ([getLogs]).

    Each handler is a small program that awaits storage operations; the
    operations are interpreted over a [Store] holding the two collections
    in insertion order.  What [index.js] takes from its platform (the
    ECMAScript built-ins [Date.parse], [Number] and the local time zone,
    and the driver's treatment of unusual cursor limits) is gathered in the
    class [Platform]; the theorems hold for every platform, and the
    examples are evaluated on [Node.utc]. *)

From Stdlib Require Import ZArith QArith List String Ascii Bool Lia DecimalString.
Import ListNotations.

Local Open Scope Z_scope.
Local Open Scope string_scope.

(* ================================================================== *)
(** ** ECMAScript values *)

Module Js.

(** A Number: NaN, an infinity, or a finite value (both zeros are the
    rational 0). *)
Inductive number : Type :=
| NaN
| Infinity (negative : bool)
| Finite (q : Q).

(** ToBoolean on a Number: false for NaN and the zeros. *)
Definition number_truthy (n : number) : bool :=
  match n with
  | NaN => false
  | Infinity _ => true
  | Finite q => negb (Qeq_bool q 0)
  end.

Definition isNaN (n : number) : bool :=
  match n with NaN => true | _ => false end.

(** The integer a finite Number denotes, when it denotes one. *)
Definition integer_of (n : number) : option Z :=
  match n with
  | Finite q =>
      if ((Qnum q mod Zpos (Qden q)) =? 0)%Z
      then Some (Qnum q / Zpos (Qden q)) else None
  | _ => None
  end.

Definition of_Z (z : Z) : number := Finite (inject_Z z).

(** The value of a body field that the Number-typed schema path reads:
    a form post carries a string, a JSON post may carry a number. *)
Inductive value : Type :=
| undefined
| Num (n : number)
| Str (s : string).

(** ToBoolean, the test behind [!x], [x && ...] and [if (x)]. *)
Definition truthy (v : value) : bool :=
  match v with
  | undefined => false
  | Num n => number_truthy n
  | Str s => negb (String.eqb s "")
  end.

(** A field that is always a string when present (form fields, query
    parameters). *)
Definition field := option string.

Definition field_truthy (f : field) : bool :=
  match f with
  | None => false
  | Some s => negb (String.eqb s "")
  end.

(** The string of a field that passed the truthiness test. *)
Definition text (f : field) : string :=
  match f with
  | Some s => s
  | None => ""
  end.

(** A Date object: its time value in milliseconds since the epoch, or
    [None] when the time value is NaN ("Invalid Date"). *)
Definition Date : Type := option Z.

Definition date_valid (d : Date) : bool :=
  match d with Some _ => true | None => false end.

End Js.

Import Js.

(** What the handlers use from the platform they run on. *)
Class Platform : Type := {
  (** [Date.parse]: the time value of a date string, [None] for NaN. *)
  Date_parse : string -> option Z;
  (** the offset of local time from UTC, in milliseconds, at a UTC time *)
  LocalTZA : Z -> Z;
  (** [Number(s)] for a string [s] *)
  StringToNumber : string -> number;
  (** How many of [n] matching documents a cursor returns when its limit
      is not a non-negative integer (negative, fractional, infinite, NaN);
      [None] when the command is refused. *)
  cursor_limit_other : number -> nat -> option nat
}.

(* ================================================================== *)
(** ** Dates and their display form *)

Module DateString.

Definition msPerDay : Z := 86400000.

(** Day(t) *)
Definition Day (t : Z) : Z := t / msPerDay.

(** WeekDay(t); 0 is Sunday. *)
Definition WeekDay (t : Z) : Z := (Day t + 4) mod 7.

(** Year, month (1..12) and day of month of a day number counted from
    1970-01-01, in the proleptic Gregorian calendar. *)
Definition civil_from_days (days : Z) : Z * Z * Z :=
  let z := days + 719468 in
  let era := z / 146097 in
  let doe := z - era * 146097 in
  let yoe := (doe - doe / 1460 + doe / 36524 - doe / 146096) / 365 in
  let doy := doe - (365 * yoe + yoe / 4 - yoe / 100) in
  let mp := (5 * doy + 2) / 153 in
  let d := doy - (153 * mp + 2) / 5 + 1 in
  let m := if (mp <? 10)%Z then mp + 3 else mp - 9 in
  let y := yoe + era * 400 + (if (m <=? 2)%Z then 1 else 0) in
  (y, m, d).

(** The inverse direction: the day number of a civil date. *)
Definition days_from_civil (y m d : Z) : Z :=
  let y' := if (m <=? 2)%Z then y - 1 else y in
  let era := y' / 400 in
  let yoe := y' - era * 400 in
  let mp := if (m <=? 2)%Z then m + 9 else m - 3 in
  let doy := (153 * mp + 2) / 5 + d - 1 in
  let doe := yoe * 365 + yoe / 4 - yoe / 100 + doy in
  era * 146097 + doe - 719468.

Definition YearFromTime (t : Z) : Z := fst (fst (civil_from_days (Day t))).
Definition MonthFromTime (t : Z) : Z := snd (fst (civil_from_days (Day t))) - 1.
Definition DateFromTime (t : Z) : Z := snd (civil_from_days (Day t)).

Definition weekdayNames : list string :=
  ["Sun"; "Mon"; "Tue"; "Wed"; "Thu"; "Fri"; "Sat"].

Definition monthNames : list string :=
  ["Jan"; "Feb"; "Mar"; "Apr"; "May"; "Jun";
   "Jul"; "Aug"; "Sep"; "Oct"; "Nov"; "Dec"].

Definition decimal (n : Z) : string :=
  NilZero.string_of_uint (N.to_uint (Z.to_N n)).

Fixpoint zeros (n : nat) : string :=
  match n with
  | O => ""
  | S n' => String "0" (zeros n')
  end.

(** ToZeroPaddedDecimalString(n, minLength) *)
Definition ToZeroPaddedDecimalString (n : Z) (minLength : nat) : string :=
  let s := decimal n in
  zeros (minLength - String.length s) ++ s.

(** DateString(tv) for a finite time value already in local time. *)
Definition DateString (tv : Z) : string :=
  let weekday := nth (Z.to_nat (WeekDay tv)) weekdayNames "" in
  let month := nth (Z.to_nat (MonthFromTime tv)) monthNames "" in
  let day := ToZeroPaddedDecimalString (DateFromTime tv) 2 in
  let yv := YearFromTime tv in
  let yearSign := if (0 <=? yv)%Z then "" else "-" in
  let paddedYear := ToZeroPaddedDecimalString (Z.abs yv) 4 in
  weekday ++ " " ++ month ++ " " ++ day ++ " " ++ yearSign ++ paddedYear.

(** [Date.prototype.toDateString] *)
Definition toDateString `{Platform} (d : Date) : string :=
  match d with
  | None => "Invalid Date"
  | Some tv => DateString (tv + LocalTZA tv)
  end.

Definition is_digit (c : ascii) : bool :=
  let n := nat_of_ascii c in (48 <=? n)%nat && (n <=? 57)%nat.

Fixpoint all_digits (s : string) : bool :=
  match s with
  | EmptyString => true
  | String c s' => is_digit c && all_digits s'
  end.

(** The shape "Www Mmm DD YYYY": a weekday name, a month name, a
    two-digit day and a year of at least four digits (with a minus sign
    before year zero). *)
Definition display_formatted (s : string) : Prop :=
  exists weekday month day sign year,
    In weekday weekdayNames /\ In month monthNames /\
    String.length day = 2%nat /\ all_digits day = true /\
    (sign = "" \/ sign = "-") /\
    (4 <= String.length year)%nat /\ all_digits year = true /\
    s = weekday ++ " " ++ month ++ " " ++ day ++ " " ++ sign ++ year.

End DateString.

Import DateString.

(** [toDateStringSafe(date)]: [new Date(date).toDateString()].  The
    argument is always a Date taken from a document, and [new Date] of a
    Date copies its time value. *)
Definition toDateStringSafe `{Platform} (date : Date) : string :=
  toDateString date.

(* ================================================================== *)
(** ** The date pattern *)

Module Regex.

(** The atoms of [/^\d{4}-\d{2}-\d{2}$/]: the class [\d] (the ASCII
    digits) and a literal character. *)
Inductive atom : Type :=
| digit
| lit (c : ascii).

Definition atom_matches (a : atom) (c : ascii) : bool :=
  match a with
  | digit => is_digit c
  | lit c' => Ascii.eqb c c'
  end.

(** [a{n}] *)
Definition times (n : nat) (a : atom) : list atom := repeat a n.

(** A sequence of atoms anchored at both ends ([^ ... $], no flags): the
    whole input is consumed, one character per atom. *)
Fixpoint test (p : list atom) (s : string) : bool :=
  match p, s with
  | [], EmptyString => true
  | a :: p', String c s' => atom_matches a c && test p' s'
  | _, _ => false
  end.

End Regex.

Definition date_pattern : list Regex.atom :=
  (Regex.times 4 Regex.digit ++ [Regex.lit "-"] ++
   Regex.times 2 Regex.digit ++ [Regex.lit "-"] ++
   Regex.times 2 Regex.digit)%list.

(** [isValidDateStringYYYYMMDD(str)] *)
Definition isValidDateStringYYYYMMDD (str : string) : bool :=
  Regex.test date_pattern str.

(** The pattern as the specification words it: four digits, a hyphen, two
    digits, a hyphen, two digits, and nothing else. *)
Definition is_YYYY_MM_DD (s : string) : Prop :=
  exists y1 y2 y3 y4 m1 m2 d1 d2 : ascii,
    Forall (fun c => is_digit c = true) [y1; y2; y3; y4; m1; m2; d1; d2] /\
    s = string_of_list_ascii
          [y1; y2; y3; y4; "-"%char; m1; m2; "-"%char; d1; d2].

(* ================================================================== *)
(** ** Documents and the store *)

(** An ObjectId is a 96-bit value; a string is cast to one when it is 24
    hexadecimal digits (of either case), as the current driver does. *)
Definition ObjectId : Type := N.

Definition hex_digit (c : ascii) : option N :=
  let n := N_of_ascii c in
  if ((48 <=? n) && (n <=? 57))%N then Some (n - 48)%N
  else if ((97 <=? n) && (n <=? 102))%N then Some (n - 87)%N
  else if ((65 <=? n) && (n <=? 70))%N then Some (n - 55)%N
  else None.

Fixpoint hex_value (s : string) (acc : N) : option N :=
  match s with
  | EmptyString => Some acc
  | String c s' =>
      match hex_digit c with
      | Some d => hex_value s' (16 * acc + d)%N
      | None => None
      end
  end.

Definition castObjectId (s : string) : option ObjectId :=
  if (String.length s =? 24)%nat then hex_value s 0%N else None.

Module User.
(** [userSchema], with the two fields of [timestamps: true]. *)
Record t : Type := {
  _id : ObjectId;
  username : string;
  createdAt : Z;
  updatedAt : Z
}.
End User.

Module Exercise.
(** [exerciseSchema] *)
Record t : Type := {
  _id : ObjectId;
  userId : ObjectId;
  description : string;
  duration : number;
  date : Date
}.
End Exercise.

(** The two collections, each in insertion order. *)
Record Store : Type := {
  users : list User.t;
  exercises : list Exercise.t
}.

Definition empty_store : Store := {| users := []; exercises := [] |}.

(** The errors a storage call rejects with. *)
Inductive MongoError : Type :=
| CastError
| ValidationError
| DuplicateKey
| ServerError.

(** [err.code] *)
Definition code (err : MongoError) : option Z :=
  match err with
  | DuplicateKey => Some 11000
  | _ => None
  end.

Definition Result (A : Type) : Type := (MongoError + A)%type.

(** The condition on [date] of a query: [{ $gte, $lte }], each optional. *)
Record DateCond : Type := {
  gte : option Date;
  lte : option Date
}.

(** The storage calls the handlers await. *)
Inductive Op : Type -> Type :=
| User_findOne (username : string) : Op (option User.t)
| User_findById (id : string) : Op (option User.t)
| User_save (doc : User.t) : Op unit
| User_find : Op (list User.t)
| Exercise_save (doc : Exercise.t) : Op unit
| Exercise_find (userId : string) (date : option DateCond)
    (limit : option number) : Op (list Exercise.t).

(** The storage library the handlers call (Mongoose over MongoDB), as far
    as the handlers depend on it: lookups return the first match in
    insertion order, arguments are cast to the type of their schema path
    (and a value that cannot be cast rejects the call), a save validates
    the document against its schema and respects the unique index on
    [username]. *)
Module Mongo.

Definition has_username (name : string) (u : User.t) : bool :=
  String.eqb (User.username u) name.

Definition has_id (id : ObjectId) (u : User.t) : bool :=
  N.eqb (User._id u) id.

Definition findOne (name : string) (s : Store) : option User.t :=
  find (has_username name) (users s).

(** [findById] casts its argument to the type of [_id] first. *)
Definition findById (id : string) (s : Store) : Result (option User.t) :=
  match castObjectId id with
  | None => inl CastError
  | Some oid => inr (find (has_id oid) (users s))
  end.

(** Saving a new user: [username] is required, and the unique index on
    [username] refuses a second document with the same value.  (The
    [_id] of a new document is generated and never repeats, so the index
    on [_id] refuses nothing and is left out.) *)
Definition saveUser (doc : User.t) (s : Store) : Result unit * Store :=
  if String.eqb (User.username doc) "" then (inl ValidationError, s)
  else
    match findOne (User.username doc) s with
    | Some _ => (inl DuplicateKey, s)
    | None =>
        (inr tt, {| users := users s ++ [doc]; exercises := exercises s |})
    end.

(** The validation of [exerciseSchema]: every path is required, a
    Number path refuses NaN and a Date path refuses an invalid Date. *)
Definition exercise_valid (doc : Exercise.t) : bool :=
  negb (String.eqb (Exercise.description doc) "") &&
  negb (isNaN (Exercise.duration doc)) &&
  date_valid (Exercise.date doc).

Definition saveExercise (doc : Exercise.t) (s : Store)
  : Result unit * Store :=
  if exercise_valid doc
  then (inr tt, {| users := users s; exercises := exercises s ++ [doc] |})
  else (inl ValidationError, s).

(** Casting the operands of a date condition: an invalid Date is
    refused. *)
Definition cast_bound (b : option Date) : Result (option Z) :=
  match b with
  | None => inr None
  | Some None => inl CastError
  | Some (Some t) => inr (Some t)
  end.

(** Casting a date condition.  One without any operator is compared as a
    value, and the empty object is not a date. *)
Definition cast_cond (c : DateCond) : Result (option Z * option Z) :=
  match gte c, lte c with
  | None, None => inl CastError
  | _, _ =>
      match cast_bound (gte c), cast_bound (lte c) with
      | inr lo, inr hi => inr (lo, hi)
      | _, _ => inl CastError
      end
  end.

Definition date_matches (lo hi : option Z) (d : Date) : bool :=
  match d with
  | None => false
  | Some t =>
      match lo with Some a => (a <=? t)%Z | None => true end &&
      match hi with Some b => (t <=? b)%Z | None => true end
  end.

Definition owned_by (oid : ObjectId) (e : Exercise.t) : bool :=
  N.eqb (Exercise.userId e) oid.

(** [cursor.limit(n)]: a limit of 0 is no limit, a positive integer
    keeps that many documents from the front; any other value is the
    platform's affair. *)
Definition apply_limit `{Platform} {A : Type} (limit : option number)
    (docs : list A) : Result (list A) :=
  match limit with
  | None => inr docs
  | Some n =>
      match integer_of n with
      | Some z =>
          if (z =? 0)%Z then inr docs
          else if (0 <? z)%Z then inr (firstn (Z.to_nat z) docs)
          else match cursor_limit_other n (List.length docs) with
               | Some k => inr (firstn k docs)
               | None => inl ServerError
               end
      | None =>
          match cursor_limit_other n (List.length docs) with
          | Some k => inr (firstn k docs)
          | None => inl ServerError
          end
      end
  end.

(** [Exercise.find({ userId, date? }).limit(n)?.exec()] *)
Definition findExercises `{Platform} (userId : string)
    (cond : option DateCond) (limit : option number) (s : Store)
  : Result (list Exercise.t) :=
  match castObjectId userId with
  | None => inl CastError
  | Some oid =>
      match cond with
      | None => apply_limit limit (filter (owned_by oid) (exercises s))
      | Some c =>
          match cast_cond c with
          | inr (lo, hi) =>
              apply_limit limit
                (filter (fun e => owned_by oid e &&
                                  date_matches lo hi (Exercise.date e))
                        (exercises s))
          | inl err => inl err
          end
      end
  end.

(** One storage call: its result and the store after it. *)
Definition exec `{Platform} {X : Type} (op : Op X) (s : Store)
  : Result X * Store :=
  match op in Op X return Result X * Store with
  | User_findOne name => (inr (findOne name s), s)
  | User_findById id => (findById id s, s)
  | User_save doc => saveUser doc s
  | User_find => (inr (users s), s)
  | Exercise_save doc => saveExercise doc s
  | Exercise_find userId cond limit =>
      (findExercises userId cond limit s, s)
  end.

End Mongo.

(* ================================================================== *)
(** ** Handlers *)

(** A handler runs until it awaits a storage call, and goes on with the
    call's result (or its rejection). *)
Inductive Handler (R : Type) : Type :=
| Done (r : R)
| Await {X : Type} (op : Op X) (k : Result X -> Handler R).

Arguments Done {R} r.
Arguments Await {R X} op k.

(** [await op] inside a [try] block: a rejection leaves the block. *)
Notation "'let!' x ':=' 'await' op 'in' k" :=
  (Await op (fun r => match r with
                      | inl err => Done (inl err)
                      | inr x => k
                      end))
  (at level 10, x pattern, op at level 9, k at level 200).

Fixpoint try_catch {E R : Type} (body : Handler (E + R))
    (handler : E -> Handler R) : Handler R :=
  match body with
  | Done (inl err) => handler err
  | Done (inr r) => Done r
  | Await op k => Await op (fun x => try_catch (k x) handler)
  end.

(** Running a handler with no other request in between its calls. *)
Fixpoint run `{Platform} {R : Type} (h : Handler R) (s : Store) : R * Store :=
  match h with
  | Done r => (r, s)
  | Await op k => let (x, s') := Mongo.exec op s in run (k x) s'
  end.

(** What other requests write while a handler is suspended. *)
Inductive Write : Type :=
| InsertUser (doc : User.t)
| InsertExercise (doc : Exercise.t).

Definition apply_write (w : Write) (s : Store) : Store :=
  match w with
  | InsertUser doc => snd (Mongo.saveUser doc s)
  | InsertExercise doc => snd (Mongo.saveExercise doc s)
  end.

Definition apply_writes (ws : list Write) (s : Store) : Store :=
  fold_left (fun s w => apply_write w s) ws s.

(** Running a handler under a schedule: before each storage call of the
    handler, the next batch of writes of other requests lands. *)
Fixpoint run_with `{Platform} {R : Type} (sched : list (list Write))
    (h : Handler R) (s : Store) : R * Store :=
  match h with
  | Done r => (r, s)
  | Await op k =>
      let s1 := apply_writes (hd [] sched) s in
      let (x, s2) := Mongo.exec op s1 in
      run_with (tl sched) (k x) s2
  end.

(** *** Responses *)

Record LogEntry : Type := {
  log_description : string;
  log_duration : number;
  log_date : string
}.

(** The JSON bodies the handlers send. *)
Inductive Body : Type :=
| ErrorBody (error : string)
| UserBody (username : string) (_id : ObjectId)
| UsersBody (users : list (string * ObjectId))
| ExerciseBody (_id : ObjectId) (username description : string)
    (duration : number) (date : string)
| LogsBody (username : string) (count : nat) (_id : ObjectId)
    (log : list LogEntry).

Record Response : Type := {
  status : Z;
  body : Body
}.

(** [res.json(b)] and [res.status(c).json(b)] *)
Definition json (b : Body) : Response := {| status := 200; body := b |}.
Definition status_json (c : Z) (b : Body) : Response :=
  {| status := c; body := b |}.

(** How a handler ends: with a response, or with an exception nothing
    catches (no response is sent). *)
Inductive Outcome : Type :=
| Responded (r : Response)
| Unhandled.

Definition server_error : Outcome :=
  Responded (status_json 500 (ErrorBody "Server error")).

Definition code_is (err : MongoError) (c : Z) : bool :=
  match code err with
  | Some c' => (c' =? c)%Z
  | None => false
  end.

Section Handlers.

Context `{Platform}.

(** [new Date(s)] for a string *)
Definition new_Date (s : string) : Date := Date_parse s.

(** [Number(v)] *)
Definition Number (v : value) : number :=
  match v with
  | undefined => NaN
  | Num n => n
  | Str s => StringToNumber s
  end.

(** [POST /api/users].  [oid] is the [_id] the new document is given and
    [now] the clock when it is saved. *)
Definition createOrGetUser (username : field) (oid : ObjectId) (now : Z)
  : Handler Outcome :=
  try_catch
    (if negb (field_truthy username)
     then Done (inr (Responded
            (status_json 400 (ErrorBody "username is required"))))
     else
       let! found := await (User_findOne (text username)) in
       match found with
       | Some user =>
           Done (inr (Responded
             (json (UserBody (User.username user) (User._id user)))))
       | None =>
           let user := {| User._id := oid;
                          User.username := text username;
                          User.createdAt := now;
                          User.updatedAt := now |} in
           let! _ := await (User_save user) in
           Done (inr (Responded
             (json (UserBody (User.username user) (User._id user)))))
       end)
    (fun err =>
       if code_is err 11000 then
         Await (User_findOne (text username)) (fun r =>
           match r with
           | inr (Some existing) =>
               Done (Responded
                 (json (UserBody (User.username existing)
                                 (User._id existing))))
           | _ => Done Unhandled
           end)
       else Done server_error).

(** [GET /api/users] *)
Definition listUsers : Handler Outcome :=
  try_catch
    (let! users := await User_find in
     Done (inr (Responded
       (json (UsersBody
          (map (fun u => (User.username u, User._id u)) users))))))
    (fun _ => Done server_error).

(** [POST /api/users/:_id/exercises].  [eid] is the [_id] the new
    document is given and [now] the clock read by [new Date()]. *)
Definition appendExercise (_id : string) (description : field)
    (duration : value) (date : field) (eid : ObjectId) (now : Z)
  : Handler Outcome :=
  try_catch
    (if negb (field_truthy description) || negb (truthy duration)
     then Done (inr (Responded
            (status_json 400
               (ErrorBody "description and duration are required"))))
     else
       let! found := await (User_findById _id) in
       match found with
       | None =>
           Done (inr (Responded
             (status_json 404 (ErrorBody "user not found"))))
       | Some user =>
           let exerciseDate : Date :=
             if field_truthy date && isValidDateStringYYYYMMDD (text date)
             then new_Date (text date) else Some now in
           let exercise :=
             {| Exercise._id := eid;
                Exercise.userId := User._id user;
                Exercise.description := text description;
                Exercise.duration := Number duration;
                Exercise.date := exerciseDate |} in
           let! _ := await (Exercise_save exercise) in
           Done (inr (Responded (json
             (ExerciseBody (User._id user) (User.username user)
                (Exercise.description exercise)
                (Exercise.duration exercise)
                (toDateStringSafe (Exercise.date exercise))))))
       end)
    (fun _ => Done server_error).

(** The [dateFilter] object of the logs handler. *)
Definition dateFilter (from to : field) : option DateCond :=
  if field_truthy from || field_truthy to then
    Some {| gte := if field_truthy from
                   then Some (new_Date (text from)) else None;
            lte := if field_truthy to
                   then Some (new_Date (text to)) else None |}
  else None.

Definition logEntry (ex : Exercise.t) : LogEntry :=
  {| log_description := Exercise.description ex;
     log_duration := Exercise.duration ex;
     log_date := toDateStringSafe (Exercise.date ex) |}.

(** [GET /api/users/:_id/logs] *)
Definition getLogs (_id : string) (from to limit : field)
  : Handler Outcome :=
  try_catch
    (let! found := await (User_findById _id) in
     match found with
     | None =>
         Done (inr (Responded
           (status_json 404 (ErrorBody "user not found"))))
     | Some user =>
         let query_limit :=
           if field_truthy limit
           then Some (Number (Str (text limit))) else None in
         let! exercises :=
           await (Exercise_find _id (dateFilter from to) query_limit) in
         Done (inr (Responded (json
           (LogsBody (User.username user) (List.length exercises)
              (User._id user) (map logEntry exercises)))))
     end)
    (fun _ => Done server_error).

End Handlers.

(* ================================================================== *)
(** ** The parts of a handler's run *)

Definition missing_fields : Outcome :=
  Responded (status_json 400
    (ErrorBody "description and duration are required")).

Definition user_not_found : Outcome :=
  Responded (status_json 404 (ErrorBody "user not found")).

Definition username_required : Outcome :=
  Responded (status_json 400 (ErrorBody "username is required")).

Definition add_exercise (doc : Exercise.t) (s : Store) : Store :=
  {| users := users s; exercises := exercises s ++ [doc] |}.

Definition add_user (doc : User.t) (s : Store) : Store :=
  {| users := users s ++ [doc]; exercises := exercises s |}.

Section Parts.

Context `{Platform}.

(** The date the exercise handler puts in the new document. *)
Definition exerciseDate (date : field) (now : Z) : Date :=
  if field_truthy date && isValidDateStringYYYYMMDD (text date)
  then new_Date (text date) else Some now.

(** The document the exercise handler builds for [user]. *)
Definition new_exercise (user : User.t) (description : field)
    (duration : value) (date : field) (eid : ObjectId) (now : Z)
  : Exercise.t :=
  {| Exercise._id := eid;
     Exercise.userId := User._id user;
     Exercise.description := text description;
     Exercise.duration := Number duration;
     Exercise.date := exerciseDate date now |}.

Definition exercise_view (user : User.t) (doc : Exercise.t) : Outcome :=
  Responded (json
    (ExerciseBody (User._id user) (User.username user)
       (Exercise.description doc) (Exercise.duration doc)
       (toDateStringSafe (Exercise.date doc)))).

(** The limit the logs handler puts on its query. *)
Definition query_limit (limit : field) : option number :=
  if field_truthy limit then Some (Number (Str (text limit))) else None.

Definition logs_view (user : User.t) (docs : list Exercise.t) : Outcome :=
  Responded (json
    (LogsBody (User.username user) (List.length docs) (User._id user)
       (map logEntry docs))).

Definition user_view (user : User.t) : Outcome :=
  Responded (json (UserBody (User.username user) (User._id user))).

(** The document the user handler builds. *)
Definition new_user (username : field) (oid : ObjectId) (now : Z)
  : User.t :=
  {| User._id := oid; User.username := text username;
     User.createdAt := now; User.updatedAt := now |}.

(** The requests of the API, each with what its handler draws from the
    environment (generated ids, the clock). *)
Inductive Request : Type :=
| PostUser (username : field) (oid : ObjectId) (now : Z)
| GetUsers
| PostExercise (_id : string) (description : field) (duration : value)
    (date : field) (eid : ObjectId) (now : Z)
| GetLogs (_id : string) (from to limit : field).

Definition handler (r : Request) : Handler Outcome :=
  match r with
  | PostUser username oid now => createOrGetUser username oid now
  | GetUsers => listUsers
  | PostExercise _id description duration date eid now =>
      appendExercise _id description duration date eid now
  | GetLogs _id from to limit => getLogs _id from to limit
  end.

(** The store after a sequence of requests served one after the other. *)
Definition serve_all (rs : list Request) (s : Store) : Store :=
  fold_left (fun s r => snd (run (handler r) s)) rs s.

End Parts.

(* ================================================================== *)
(** ** The vocabulary of the properties *)

(** The id string names a stored user. *)
Definition refers_to_user (_id : string) (s : Store) : Prop :=
  exists u, In u (users s) /\ castObjectId _id = Some (User._id u).

(** Every stored exercise has a valid date. *)
Definition dates_valid (s : Store) : Prop :=
  Forall (fun e => date_valid (Exercise.date e) = true) (exercises s).

(** What a [from] or [to] parameter asks for. *)
Inductive Bound : Type :=
| Unbounded
| At (t : Z)
| Unparseable.

Definition bound `{Platform} (f : field) : Bound :=
  if field_truthy f then
    match Date_parse (text f) with
    | Some t => At t
    | None => Unparseable
    end
  else Unbounded.

Definition unparseable (b : Bound) : bool :=
  match b with Unparseable => true | _ => false end.

(** A stored date lies in the inclusive range of two bounds. *)
Definition in_range (lo hi : Bound) (d : Date) : bool :=
  match lo, hi with
  | Unbounded, Unbounded => true
  | _, _ =>
      match d with
      | None => false
      | Some t =>
          match lo with At a => (a <=? t)%Z | _ => true end &&
          match hi with At b => (t <=? b)%Z | _ => true end
      end
  end.

(** The exercises of a user within two bounds, in storage order. *)
Definition selected (oid : ObjectId) (lo hi : Bound) (s : Store)
  : list Exercise.t :=
  filter (fun e => Mongo.owned_by oid e && in_range lo hi (Exercise.date e))
         (exercises s).

(** A limit that is a positive integer. *)
Definition positive_limit `{Platform} (limit : field) (n : nat) : Prop :=
  field_truthy limit = true /\
  exists z, integer_of (StringToNumber (text limit)) = Some z /\
            (0 < z)%Z /\ n = Z.to_nat z.

(** A limit whose Number is zero. *)
Definition zero_limit `{Platform} (limit : field) : Prop :=
  exists l q, limit = Some l /\ StringToNumber l = Finite q /\ (q == 0)%Q.


(** Every stored exercise belongs to a stored user. *)
Definition references_valid (s : Store) : Prop :=
  Forall (fun e => exists u, In u (users s) /\
                             User._id u = Exercise.userId e)
         (exercises s).


(** The body is an [{ error }] object. *)
Definition is_error (b : Body) : bool :=
  match b with
  | ErrorBody _ => true
  | _ => false
  end.

(** The log of a logs answer. *)
Definition log_of (o : Outcome) : option (list LogEntry) :=
  match o with
  | Responded {| status := _; body := LogsBody _ _ _ log |} => Some log
  | _ => None
  end.

(* ================================================================== *)
(** ** A platform to evaluate the handlers on *)

Module Node.

Definition digit_value (c : ascii) : Z := Z.of_nat (nat_of_ascii c) - 48.

Fixpoint decimal_value (s : string) (acc : Z) : Z :=
  match s with
  | EmptyString => acc
  | String c s' => decimal_value s' (10 * acc + digit_value c)
  end.

(** [Date.parse] on date-only strings [YYYY-MM-DD], read as UTC midnight
    with a month in 1..12 and a day in 1..31; NaN for everything else. *)
Definition parse_date_only (s : string) : option Z :=
  if isValidDateStringYYYYMMDD s then
    let y := decimal_value (substring 0 4 s) 0 in
    let m := decimal_value (substring 5 2 s) 0 in
    let d := decimal_value (substring 8 2 s) 0 in
    if ((1 <=? m) && (m <=? 12) && (1 <=? d) && (d <=? 31))%Z
    then Some (days_from_civil y m d * msPerDay)
    else None
  else None.

(** [Number(s)] on the empty string and on strings of decimal digits;
    NaN for everything else. *)
Definition number_of_digits (s : string) : number :=
  if all_digits s then of_Z (decimal_value s 0) else NaN.

(** Node with the process time zone set to UTC, restricted to the
    literals above; a cursor limit that is not a non-negative integer is
    refused. *)
Definition utc : Platform := {|
  Date_parse := parse_date_only;
  LocalTZA := fun _ => 0;
  StringToNumber := number_of_digits;
  cursor_limit_other := fun _ _ => None
|}.

End Node.


(** A user with five logged exercises, built through the API. *)
Module Sample.

Definition alice_id : string := "000000000000000000000001".
Definition unknown_id : string := "000000000000000000000002".

Definition post (day : string) (eid : ObjectId) : Request :=
  PostExercise alice_id (Some "run") (Str "30") (Some day) eid 0.

Definition requests : list Request :=
  [ PostUser (Some "alice") 1%N 0;
    post "2023-01-15" 11%N; post "2023-02-15" 12%N;
    post "2023-03-15" 13%N; post "2023-04-15" 14%N;
    post "2023-05-15" 15%N ].

Definition store : Store :=
  Eval vm_compute in @serve_all Node.utc requests empty_store.

Definition alice : User.t :=
  {| User._id := 1%N; User.username := "alice";
     User.createdAt := 0; User.updatedAt := 0 |}.

End Sample.

(* ================================================================== *)
(** ** The runs of the handlers *)

Section Runs.

Context `{Platform}.

Lemma run_appendExercise s _id description duration date eid now :
  run (appendExercise _id description duration date eid now) s =
  if negb (field_truthy description) || negb (truthy duration)
  then (missing_fields, s)
  else
    match Mongo.findById _id s with
    | inl _ => (server_error, s)
    | inr None => (user_not_found, s)
    | inr (Some user) =>
        let doc := new_exercise user description duration date eid now in
        if Mongo.exercise_valid doc
        then (exercise_view user doc, add_exercise doc s)
        else (server_error, s)
    end.
Proof.
  unfold appendExercise.
  destruct (negb (field_truthy description) || negb (truthy duration));
    [reflexivity|].
  cbn [try_catch run Mongo.exec].
  destruct (Mongo.findById _id s) as [err|[user|]]; cbn; try reflexivity.
  unfold Mongo.saveExercise.
  fold (exerciseDate date now).
  fold (new_exercise user description duration date eid now).
  destruct (Mongo.exercise_valid _); reflexivity.
Qed.

Lemma run_getLogs s _id from to limit :
  run (getLogs _id from to limit) s =
  match Mongo.findById _id s with
  | inl _ => (server_error, s)
  | inr None => (user_not_found, s)
  | inr (Some user) =>
      match Mongo.findExercises _id (dateFilter from to)
              (query_limit limit) s with
      | inl _ => (server_error, s)
      | inr docs => (logs_view user docs, s)
      end
  end.
Proof.
  unfold getLogs.
  cbn [try_catch run Mongo.exec].
  destruct (Mongo.findById _id s) as [err|[user|]]; cbn; try reflexivity.
  fold (query_limit limit).
  destruct (Mongo.findExercises _ _ _ s); reflexivity.
Qed.

(** The user handler when no other request interferes: the insert
    cannot meet a duplicate, since the lookup has just found none. *)
Lemma run_createOrGetUser s username oid now :
  run (createOrGetUser username oid now) s =
  if negb (field_truthy username)
  then (username_required, s)
  else
    match Mongo.findOne (text username) s with
    | Some user => (user_view user, s)
    | None =>
        (user_view (new_user username oid now),
         add_user (new_user username oid now) s)
    end.
Proof.
  unfold createOrGetUser.
  destruct (field_truthy username) eqn:Ht; [|reflexivity].
  cbn [negb try_catch run Mongo.exec].
  destruct (Mongo.findOne (text username) s) as [user|] eqn:Hf;
    [reflexivity|].
  cbn [try_catch run Mongo.exec]. unfold Mongo.saveUser.
  cbn [User.username]. rewrite Hf.
  destruct username as [name|]; [|discriminate].
  cbn in Ht |- *. destruct (String.eqb name ""); [discriminate|].
  reflexivity.
Qed.

Lemma run_listUsers s :
  run listUsers s =
  (Responded (json (UsersBody
     (map (fun u => (User.username u, User._id u)) (users s)))), s).
Proof. reflexivity. Qed.

Lemma findById_found _id s user :
  Mongo.findById _id s = inr (Some user) ->
  In user (users s) /\ castObjectId _id = Some (User._id user).
Proof.
  unfold Mongo.findById. destruct (castObjectId _id) as [oid|]; [|discriminate].
  intros [= Hf]. apply find_some in Hf as [Hin Hid].
  apply N.eqb_eq in Hid. subst oid. auto.
Qed.

Lemma findById_unknown _id s :
  ~ refers_to_user _id s ->
  Mongo.findById _id s = inl CastError \/ Mongo.findById _id s = inr None.
Proof.
  intros Hno. destruct (Mongo.findById _id s) as [[]|[user|]] eqn:Hf;
    auto; try (unfold Mongo.findById in Hf;
               destruct (castObjectId _id); discriminate).
  exfalso. apply Hno. exists user. now apply findById_found.
Qed.

End Runs.

(* ================================================================== *)
(** ** Required fields of an exercise *)

Section RequiredFields.

Context `{Platform}.

(** C9.  When the description or the duration of an exercise post is
    present but falsy (the description is the empty string, or the
    duration is the empty string or a number that is zero), the handler
    answers 400 with "description and duration are required" and leaves
    the store as it was; the answer is the one given when that field is
    absent. *)
Theorem appendExercise_falsy_field_rejected
    s _id description duration date eid now :
  description = Some "" \/ duration = Str "" \/
  (exists n, duration = Num n /\ number_truthy n = false) ->
  run (appendExercise _id description duration date eid now) s
    = (Responded (status_json 400
         (ErrorBody "description and duration are required")), s) /\
  run (appendExercise _id None duration date eid now) s
    = run (appendExercise _id description duration date eid now) s /\
  run (appendExercise _id description undefined date eid now) s
    = run (appendExercise _id description duration date eid now) s.
Proof.
  intros Hfalsy. rewrite !run_appendExercise.
  assert (Hc : negb (field_truthy description) || negb (truthy duration)
               = true).
  { destruct Hfalsy as [-> | [-> | [n [-> Hn]]]]; cbn.
    - reflexivity.
    - apply orb_true_r.
    - rewrite Hn. apply orb_true_r. }
  rewrite Hc. cbn [field_truthy truthy negb orb].
  rewrite orb_true_r. auto.
Qed.

(** A duration equal to the number 0 is such a value. *)
Lemma zero_is_falsy : number_truthy (of_Z 0) = false.
Proof. reflexivity. Qed.

End RequiredFields.

Section RequiredFieldsOnNode.

#[local] Existing Instance Node.utc.

Lemma appendExercise_falsy_field_rejected_witness :
  (Some "run" = Some "" \/ Num (of_Z 0) = Str "" \/
   (exists n, Num (of_Z 0) = Num n /\ number_truthy n = false)) /\
  run (appendExercise Sample.alice_id (Some "run") (Num (of_Z 0)) None 16%N 0)
      Sample.store
  = (missing_fields, Sample.store).
Proof.
  assert (Hfalsy : Some "run" = Some "" \/ Num (of_Z 0) = Str "" \/
            (exists n, Num (of_Z 0) = Num n /\ number_truthy n = false)).
  { right; right. exists (of_Z 0). split; reflexivity. }
  split; [exact Hfalsy|].
  exact (proj1 (appendExercise_falsy_field_rejected Sample.store
                  Sample.alice_id (Some "run") (Num (of_Z 0)) None 16%N 0
                  Hfalsy)).
Defined.

End RequiredFieldsOnNode.

(* ================================================================== *)
(** ** Posting an exercise for a user that does not exist *)

Section UnknownUser.

Context `{Platform}.

(** A request that does not end with the document saved leaves the store
    as it was. *)
Lemma appendExercise_store s _id description duration date eid now :
  snd (run (appendExercise _id description duration date eid now) s) = s \/
  exists user,
    Mongo.findById _id s = inr (Some user) /\
    run (appendExercise _id description duration date eid now) s =
      (exercise_view user
         (new_exercise user description duration date eid now),
       add_exercise (new_exercise user description duration date eid now) s).
Proof.
  rewrite run_appendExercise.
  destruct (negb (field_truthy description) || negb (truthy duration));
    [now left|].
  destruct (Mongo.findById _id s) as [err|[user|]]; try now left.
  cbv zeta. destruct (Mongo.exercise_valid _); [|now left].
  right. exists user. auto.
Qed.

(** C2, as the handler has it.  When the id of an exercise post names no
    stored user, no exercise is created, whatever the other fields are.
    The answer is 404 "user not found" when the description and the
    duration are truthy and the id is a well-formed ObjectId; a falsy
    description or duration is answered first, with 400, and an id that
    cannot be cast to an ObjectId makes the lookup fail, which is answered
    with 500. *)
Theorem appendExercise_unknown_user
    s _id description duration date eid now :
  ~ refers_to_user _id s ->
  snd (run (appendExercise _id description duration date eid now) s) = s /\
  fst (run (appendExercise _id description duration date eid now) s) =
    if negb (field_truthy description) || negb (truthy duration)
    then Responded (status_json 400
           (ErrorBody "description and duration are required"))
    else
      match castObjectId _id with
      | Some _ => Responded (status_json 404 (ErrorBody "user not found"))
      | None => Responded (status_json 500 (ErrorBody "Server error"))
      end.
Proof.
  intros Hno. rewrite run_appendExercise.
  destruct (negb (field_truthy description) || negb (truthy duration));
    [split; reflexivity|].
  destruct (findById_unknown _id s Hno) as [Hf|Hf]; rewrite Hf;
    unfold Mongo.findById in Hf;
    destruct (castObjectId _id); try discriminate; split; reflexivity.
Qed.

End UnknownUser.

Section UnknownUserOnNode.

#[local] Existing Instance Node.utc.

Lemma appendExercise_unknown_user_witness :
  ~ refers_to_user Sample.unknown_id Sample.store /\
  run (appendExercise Sample.unknown_id (Some "run") (Str "30") None 16%N 0)
      Sample.store
  = (user_not_found, Sample.store).
Proof.
  assert (Hno : ~ refers_to_user Sample.unknown_id Sample.store).
  { intros [u [[<-|[]] Hc]]. discriminate Hc. }
  split; [exact Hno|].
  pose proof (appendExercise_unknown_user Sample.store Sample.unknown_id
                (Some "run") (Str "30") None 16%N 0 Hno) as [Hs Hr].
  rewrite (surjective_pairing (run _ _)), Hs, Hr. reflexivity.
Defined.

(** C2, as it is worded, fails: the id names no user, and yet the answer
    is not 404, once because the description is missing (400) and once
    because the id is not an ObjectId (500). *)
Lemma appendExercise_unknown_user_not_always_404 :
  (~ refers_to_user Sample.unknown_id Sample.store /\
   fst (run (appendExercise Sample.unknown_id None (Str "30") None 16%N 0)
            Sample.store)
   = Responded (status_json 400
       (ErrorBody "description and duration are required"))) /\
  (~ refers_to_user "abc" Sample.store /\
   fst (run (appendExercise "abc" (Some "run") (Str "30") None 16%N 0)
            Sample.store)
   = Responded (status_json 500 (ErrorBody "Server error"))).
Proof.
  split; split; try reflexivity.
  - intros [u [[<-|[]] Hc]]. discriminate Hc.
  - intros [u [_ Hc]]. discriminate Hc.
Qed.

End UnknownUserOnNode.

(* ================================================================== *)
(** ** Creating a user *)

Section Users.

Context `{Platform}.

Lemma find_app_some {A} (f : A -> bool) (l l' : list A) (x : A) :
  find f l = Some x -> find f (l ++ l') = Some x.
Proof.
  induction l as [|a l IH]; cbn; [discriminate|].
  destruct (f a); auto.
Qed.

Lemma find_app_none {A} (f : A -> bool) (l l' : list A) :
  find f l = None -> find f (l ++ l') = find f l'.
Proof.
  induction l as [|a l IH]; cbn; [reflexivity|].
  destruct (f a); [discriminate|auto].
Qed.

(** Writes of other requests never remove or displace the user a
    username finds. *)
Lemma findOne_apply_write name w s u :
  Mongo.findOne name s = Some u ->
  Mongo.findOne name (apply_write w s) = Some u.
Proof.
  intros Hf. destruct w as [doc|doc]; cbn.
  - unfold Mongo.saveUser.
    destruct (String.eqb (User.username doc) ""); [exact Hf|].
    destruct (Mongo.findOne (User.username doc) s); [exact Hf|].
    cbn. unfold Mongo.findOne in *. cbn. now apply find_app_some.
  - unfold Mongo.saveExercise.
    destruct (Mongo.exercise_valid doc); exact Hf.
Qed.

Lemma findOne_apply_writes name ws s u :
  Mongo.findOne name s = Some u ->
  Mongo.findOne name (apply_writes ws s) = Some u.
Proof.
  revert s. induction ws as [|w ws IH]; intros s Hf; cbn; [exact Hf|].
  apply IH. now apply findOne_apply_write.
Qed.

Lemma findOne_username name s u :
  Mongo.findOne name s = Some u -> User.username u = name /\ In u (users s).
Proof.
  intros Hf. apply find_some in Hf as [Hin Hn].
  apply String.eqb_eq in Hn. auto.
Qed.

Lemma findOne_add_user name s doc :
  Mongo.findOne name s = None -> User.username doc = name ->
  Mongo.findOne name (add_user doc s) = Some doc.
Proof.
  intros Hf Hn. unfold Mongo.findOne, add_user in *. cbn.
  rewrite find_app_none by exact Hf. cbn.
  unfold Mongo.has_username. rewrite Hn, String.eqb_refl. reflexivity.
Qed.

Lemma truthy_name name : name <> "" -> field_truthy (Some name) = true.
Proof.
  intros Hn. cbn. destruct (String.eqb_spec name ""); [contradiction|].
  reflexivity.
Qed.

(** A call on a store that holds the username answers with the stored
    record and writes nothing. *)
Lemma createOrGetUser_existing s name oid now u :
  name <> "" -> Mongo.findOne name s = Some u ->
  run (createOrGetUser (Some name) oid now) s =
    (Responded (json (UserBody name (User._id u))), s).
Proof.
  intros Hn Hf. rewrite run_createOrGetUser, truthy_name by exact Hn.
  cbn [negb text]. rewrite Hf. unfold user_view.
  now destruct (findOne_username _ _ _ Hf) as [-> _].
Qed.

(** C3.  For a non-empty username the store does not hold yet, the first
    call adds one user with that username and answers with it; every later
    call with the same username, whatever other requests have written in
    between, answers with the same username and the same id and leaves
    the store as it finds it. *)
Theorem createOrGetUser_idempotent s name oid now :
  name <> "" ->
  Mongo.findOne name s = None ->
  let user := {| User._id := oid; User.username := name;
                 User.createdAt := now; User.updatedAt := now |} in
  run (createOrGetUser (Some name) oid now) s =
    (Responded (json (UserBody name oid)), add_user user s) /\
  forall ws oid' now',
    run (createOrGetUser (Some name) oid' now')
        (apply_writes ws (add_user user s)) =
    (Responded (json (UserBody name oid)),
     apply_writes ws (add_user user s)).
Proof.
  intros Hn Hf user. split.
  - rewrite run_createOrGetUser, truthy_name by exact Hn.
    cbn [negb text]. rewrite Hf. reflexivity.
  - intros ws oid' now'.
    apply (createOrGetUser_existing _ name oid' now' user Hn).
    apply findOne_apply_writes. now apply findOne_add_user.
Qed.

(** The user handler under any schedule of other requests' writes. *)
Lemma run_with_createOrGetUser sched s name oid now :
  name <> "" ->
  let s1 := apply_writes (hd [] sched) s in
  let s2 := apply_writes (hd [] (tl sched)) s1 in
  let s3 := apply_writes (hd [] (tl (tl sched))) s2 in
  run_with sched (createOrGetUser (Some name) oid now) s =
  match Mongo.findOne name s1 with
  | Some user => (user_view user, s1)
  | None =>
      match Mongo.findOne name s2 with
      | None =>
          (user_view (new_user (Some name) oid now),
           add_user (new_user (Some name) oid now) s2)
      | Some _ =>
          match Mongo.findOne name s3 with
          | Some existing => (user_view existing, s3)
          | None => (Unhandled, s3)
          end
      end
  end.
Proof.
  intros Hn s1 s2 s3. unfold createOrGetUser.
  rewrite truthy_name by exact Hn.
  cbn [negb text try_catch run_with Mongo.exec]. fold s1.
  destruct (Mongo.findOne name s1) as [user|]; [reflexivity|].
  cbn [try_catch run_with Mongo.exec]. fold s2.
  unfold Mongo.saveUser. cbn [User.username].
  destruct (String.eqb_spec name ""); [contradiction|].
  destruct (Mongo.findOne name s2) as [other|].
  - cbn [try_catch code_is code Z.eqb Pos.eqb run_with Mongo.exec]. fold s3.
    destruct (Mongo.findOne name s3); reflexivity.
  - reflexivity.
Qed.

(** C6.  When the insert of the user handler is refused for a duplicate
    username (another request has saved that username between the
    handler's lookup and its insert), the handler looks the username up
    again and answers 200 with the stored record; the handler itself
    writes nothing. *)
Theorem createOrGetUser_duplicate_recovered
    s name oid now (b1 b2 b3 : list Write) (sched : list (list Write)) :
  name <> "" ->
  let s1 := apply_writes b1 s in
  let s2 := apply_writes b2 s1 in
  let s3 := apply_writes b3 s2 in
  Mongo.findOne name s1 = None ->
  fst (Mongo.exec (User_save (new_user (Some name) oid now)) s2)
    = inl DuplicateKey ->
  exists existing,
    Mongo.findOne name s2 = Some existing /\
    Mongo.findOne name s3 = Some existing /\
    User.username existing = name /\
    run_with (b1 :: b2 :: b3 :: sched)
             (createOrGetUser (Some name) oid now) s =
      (Responded (json (UserBody name (User._id existing))), s3).
Proof.
  intros Hn s1 s2 s3 Hlookup Hdup.
  cbn [Mongo.exec] in Hdup. unfold Mongo.saveUser in Hdup.
  cbn [new_user User.username text] in Hdup.
  destruct (String.eqb name ""); [discriminate|].
  destruct (Mongo.findOne name s2) as [existing|] eqn:H2; [|discriminate].
  exists existing.
  assert (H3 : Mongo.findOne name s3 = Some existing)
    by now apply findOne_apply_writes.
  destruct (findOne_username _ _ _ H2) as [Hname _].
  repeat split; auto.
  rewrite run_with_createOrGetUser by exact Hn.
  cbn [hd tl]. fold s1. rewrite Hlookup. fold s2. rewrite H2.
  fold s3. rewrite H3. unfold user_view. now rewrite Hname.
Qed.

(** Under every schedule the user handler answers 200 with the username:
    neither the duplicate-key error nor a 500 reaches the caller. *)
Lemma createOrGetUser_always_answers sched s name oid now :
  name <> "" ->
  exists id,
    fst (run_with sched (createOrGetUser (Some name) oid now) s) =
      Responded (json (UserBody name id)).
Proof.
  intros Hn. rewrite run_with_createOrGetUser by exact Hn. cbv zeta.
  destruct (Mongo.findOne name (apply_writes (hd [] sched) s))
    as [user|] eqn:H1.
  - exists (User._id user). cbn. unfold user_view.
    now destruct (findOne_username _ _ _ H1) as [-> _].
  - destruct (Mongo.findOne name _) as [other|] eqn:H2 at 1.
    + rewrite (findOne_apply_writes name _ _ other H2).
      exists (User._id other). cbn. unfold user_view.
      now destruct (findOne_username _ _ _ H2) as [-> _].
    + exists oid. reflexivity.
Qed.

End Users.

Section UsersOnNode.

#[local] Existing Instance Node.utc.

Lemma createOrGetUser_idempotent_witness :
  ("bob" <> "" /\ Mongo.findOne "bob" Sample.store = None) /\
  run (createOrGetUser (Some "bob") 2%N 7) Sample.store =
    (Responded (json (UserBody "bob" 2%N)),
     add_user {| User._id := 2%N; User.username := "bob";
                 User.createdAt := 7; User.updatedAt := 7 |} Sample.store).
Proof.
  assert (Hn : "bob" <> "") by discriminate.
  assert (Hf : Mongo.findOne "bob" Sample.store = None) by reflexivity.
  split; [split; assumption|].
  exact (proj1 (createOrGetUser_idempotent Sample.store "bob" 2%N 7 Hn Hf)).
Defined.

Lemma createOrGetUser_duplicate_recovered_witness :
  let rival := {| User._id := 9%N; User.username := "bob";
                  User.createdAt := 6; User.updatedAt := 6 |} in
  exists existing,
    Mongo.findOne "bob" (apply_writes [InsertUser rival] Sample.store)
      = Some existing /\
    run_with [[]; [InsertUser rival]; []]
             (createOrGetUser (Some "bob") 2%N 7) Sample.store =
      (Responded (json (UserBody "bob" (User._id existing))),
       apply_writes [InsertUser rival] Sample.store).
Proof.
  intros rival.
  assert (Hn : "bob" <> "") by discriminate.
  destruct (createOrGetUser_duplicate_recovered Sample.store "bob" 2%N 7
              [] [InsertUser rival] [] [] Hn eq_refl eq_refl)
    as [existing [H2 [_ [_ Hrun]]]].
  exists existing. split; [exact H2|exact Hrun].
Defined.

End UsersOnNode.

(* ================================================================== *)
(** ** The date of a new exercise *)

Section ExerciseDate.

Context `{Platform}.

(** The pattern of the source and the shape the specification words are
    the same set of strings. *)
Lemma isValidDateStringYYYYMMDD_spec str :
  isValidDateStringYYYYMMDD str = true <-> is_YYYY_MM_DD str.
Proof.
  unfold isValidDateStringYYYYMMDD, is_YYYY_MM_DD. split.
  - intros Ht.
    do 10 (destruct str as [|? str];
           [cbn in Ht; rewrite ?andb_false_r in Ht; discriminate Ht|]).
    destruct str; cbn in Ht;
      repeat (apply andb_prop in Ht as [? Ht]); [|discriminate].
    repeat match goal with
           | E : Ascii.eqb _ _ = true |- _ => apply Ascii.eqb_eq in E; subst
           end.
    do 8 eexists. split; [|reflexivity].
    repeat constructor; assumption.
  - intros (y1 & y2 & y3 & y4 & m1 & m2 & d1 & d2 & Hd & ->).
    repeat match goal with
           | F : Forall _ (_ :: _) |- _ => inversion F; subst; clear F
           end.
    cbn. repeat match goal with E : is_digit _ = true |- _ => rewrite E; clear E end.
    reflexivity.
Qed.

Lemma exerciseDate_default date now :
  date = None \/ (exists d, date = Some d /\ ~ is_YYYY_MM_DD d) ->
  exerciseDate date now = Some now.
Proof.
  unfold exerciseDate. intros [-> | [d [-> Hd]]]; [reflexivity|].
  cbn [text].
  destruct (isValidDateStringYYYYMMDD d) eqn:E.
  - apply isValidDateStringYYYYMMDD_spec in E. contradiction.
  - now rewrite andb_false_r.
Qed.

Lemma exerciseDate_given d now :
  is_YYYY_MM_DD d -> exerciseDate (Some d) now = Date_parse d.
Proof.
  intros Hd. unfold exerciseDate. cbn [text].
  assert (Hv := proj2 (isValidDateStringYYYYMMDD_spec d) Hd). rewrite Hv.
  destruct Hd as (y1 & ? & ? & ? & ? & ? & ? & ? & _ & ->). reflexivity.
Qed.

Lemma new_exercise_valid user description duration date eid now :
  field_truthy description = true ->
  isNaN (Number duration) = false ->
  Mongo.exercise_valid
    (new_exercise user description duration date eid now)
  = date_valid (exerciseDate date now).
Proof.
  intros Hd Hn. unfold Mongo.exercise_valid, new_exercise. cbn.
  rewrite Hn. destruct description as [d|]; [|discriminate].
  cbn in Hd |- *. now rewrite Hd.
Qed.

(** C4.  The date pattern accepts exactly the strings made of four
    digits, a hyphen, two digits, a hyphen and two digits.  For an exercise
    post that passes the field check, names a stored user and carries a
    numeric duration: when the date is absent or is not of that shape, the
    document is saved with the clock's reading as its date; when the date
    is of that shape, the document is saved with the parse of the string
    as its date (and a string of that shape that does not parse to a date
    is not saved at all). *)
Theorem appendExercise_stored_date
    s _id description duration date eid now user :
  field_truthy description = true ->
  truthy duration = true ->
  isNaN (Number duration) = false ->
  Mongo.findById _id s = inr (Some user) ->
  let doc (d : Date) :=
    {| Exercise._id := eid; Exercise.userId := User._id user;
       Exercise.description := text description;
       Exercise.duration := Number duration;
       Exercise.date := d |} in
  (forall str, isValidDateStringYYYYMMDD str = true <-> is_YYYY_MM_DD str) /\
  (date = None \/ (exists d, date = Some d /\ ~ is_YYYY_MM_DD d) ->
   run (appendExercise _id description duration date eid now) s =
     (exercise_view user (doc (Some now)), add_exercise (doc (Some now)) s)) /\
  (forall d, date = Some d -> is_YYYY_MM_DD d ->
   match Date_parse d with
   | Some t =>
       run (appendExercise _id description duration date eid now) s =
         (exercise_view user (doc (Some t)), add_exercise (doc (Some t)) s)
   | None =>
       run (appendExercise _id description duration date eid now) s =
         (server_error, s)
   end).
Proof.
  intros Hdesc Hdur Hnum Hfind doc.
  split; [exact isValidDateStringYYYYMMDD_spec|].
  assert (Hrun := run_appendExercise s _id description duration date eid now).
  rewrite Hdesc, Hdur, Hfind in Hrun. cbn [negb orb] in Hrun. cbv zeta in Hrun.
  rewrite new_exercise_valid in Hrun by assumption.
  unfold new_exercise in Hrun.
  split.
  - intros Hdate. rewrite Hrun.
    rewrite (exerciseDate_default date now Hdate). reflexivity.
  - intros d -> Hd. rewrite Hrun, (exerciseDate_given d now Hd).
    destruct (Date_parse d); reflexivity.
Qed.

(** A post that is saved puts a valid date in the store. *)
Lemma appendExercise_saved_date s _id description duration date eid now :
  exercises (snd (run (appendExercise _id description duration date eid now) s))
    = exercises s \/
  exists doc t,
    exercises (snd (run (appendExercise _id description duration date eid now) s))
      = (exercises s ++ [doc])%list /\
    Exercise.date doc = Some t.
Proof.
  rewrite run_appendExercise.
  destruct (negb (field_truthy description) || negb (truthy duration));
    [now left|].
  destruct (Mongo.findById _id s) as [err|[user|]]; try now left.
  cbv zeta. destruct (Mongo.exercise_valid _) eqn:Hv; [|now left].
  right. unfold Mongo.exercise_valid in Hv.
  apply andb_prop in Hv as [_ Hv].
  destruct (Exercise.date (new_exercise user description duration date eid now))
    as [t|] eqn:Ht; [|discriminate].
  exists (new_exercise user description duration date eid now), t.
  split; [reflexivity|exact Ht].
Qed.

Lemma dates_valid_step s s' :
  dates_valid s ->
  (exercises s' = exercises s \/
   exists doc t, exercises s' = (exercises s ++ [doc])%list /\
                 Exercise.date doc = Some t) ->
  dates_valid s'.
Proof.
  unfold dates_valid. intros Hs [-> | (doc & t & -> & Ht)]; [exact Hs|].
  apply Forall_app. split; [exact Hs|].
  constructor; [|constructor]. now rewrite Ht.
Qed.

(** C8.  Whatever an exercise post carries (no date, a date of another
    shape, a date that does not parse), it either stores nothing or stores
    one document whose date is valid; so a store whose exercises all have
    valid dates stays such a store. *)
Theorem appendExercise_keeps_dates_valid
    s _id description duration date eid now :
  let s' :=
    snd (run (appendExercise _id description duration date eid now) s) in
  (exercises s' = exercises s \/
   exists doc t, exercises s' = (exercises s ++ [doc])%list /\
                 Exercise.date doc = Some t) /\
  (dates_valid s -> dates_valid s').
Proof.
  intros s'. pose proof (appendExercise_saved_date s _id description
                           duration date eid now) as Hstep.
  split; [exact Hstep|].
  intros Hs. now apply (dates_valid_step s).
Qed.

(** No request of the API changes the exercises except an exercise
    post. *)
Lemma serve_dates_valid r s :
  dates_valid s -> dates_valid (snd (run (handler r) s)).
Proof.
  intros Hs. destruct r as [username oid now| |_id d n dt eid now|_id f t l];
    cbn [handler].
  - rewrite run_createOrGetUser.
    destruct (negb (field_truthy username)); [exact Hs|].
    destruct (Mongo.findOne _ s); exact Hs.
  - exact Hs.
  - apply (dates_valid_step s); [exact Hs|].
    apply appendExercise_saved_date.
  - rewrite run_getLogs.
    destruct (Mongo.findById _id s) as [|[|]]; try exact Hs.
    destruct (Mongo.findExercises _ _ _ s); exact Hs.
Qed.

(** Every store the API builds from the empty one has valid dates only. *)
Lemma served_dates_valid rs : dates_valid (serve_all rs empty_store).
Proof.
  unfold serve_all.
  assert (Hgen : forall s, dates_valid s ->
            dates_valid (fold_left (fun s r => snd (run (handler r) s)) rs s)).
  { induction rs as [|r rs IH]; intros s Hs; cbn; [exact Hs|].
    apply IH. now apply serve_dates_valid. }
  apply Hgen. constructor.
Qed.

End ExerciseDate.

(* ================================================================== *)
(** ** The display form of a date *)

Section Display.

Lemma civil_from_days_bounds days :
  let '(y, m, d) := civil_from_days days in
  1 <= m <= 12 /\ 1 <= d <= 31.
Proof.
  unfold civil_from_days.
  set (z := days + 719468).
  set (era := z / 146097).
  set (doe := z - era * 146097).
  assert (Hdoe : 0 <= doe < 146097).
  { subst doe era. pose proof (Z.div_mod z 146097 ltac:(lia)).
    pose proof (Z.mod_pos_bound z 146097 ltac:(lia)). lia. }
  clearbody doe. clear z era.
  set (yoe := (doe - doe / 1460 + doe / 36524 - doe / 146096) / 365).
  set (doy := doe - (365 * yoe + yoe / 4 - yoe / 100)).
  assert (Hdoy : 0 <= doy <= 365)
    by (subst doy yoe; Z.div_mod_to_equations; lia).
  clearbody doy.
  set (mp := (5 * doy + 2) / 153).
  assert (Hmp : 0 <= mp <= 11) by (subst mp; Z.div_mod_to_equations; lia).
  assert (Hd : 1 <= doy - (153 * mp + 2) / 5 + 1 <= 31)
    by (subst mp; Z.div_mod_to_equations; lia).
  clearbody mp.
  destruct (mp <? 10)%Z eqn:E;
    [apply Z.ltb_lt in E | apply Z.ltb_ge in E]; split; lia.
Qed.

Lemma MonthFromTime_bounds t : 0 <= MonthFromTime t <= 11.
Proof.
  unfold MonthFromTime. pose proof (civil_from_days_bounds (Day t)) as Hb.
  destruct (civil_from_days (Day t)) as [[y m] d]. cbn. lia.
Qed.

Lemma DateFromTime_bounds t : 1 <= DateFromTime t <= 31.
Proof.
  unfold DateFromTime. pose proof (civil_from_days_bounds (Day t)) as Hb.
  destruct (civil_from_days (Day t)) as [[y m] d]. cbn. lia.
Qed.

Lemma WeekDay_bounds t : 0 <= WeekDay t < 7.
Proof. unfold WeekDay. apply Z.mod_pos_bound. lia. Qed.

Lemma all_digits_app a b :
  all_digits (a ++ b) = all_digits a && all_digits b.
Proof.
  induction a as [|c a IH]; cbn; [reflexivity|].
  now rewrite IH, andb_assoc.
Qed.

Lemma length_app a b :
  String.length (a ++ b) = (String.length a + String.length b)%nat.
Proof. induction a as [|c a IH]; cbn; [reflexivity|now rewrite IH]. Qed.

Lemma all_digits_uint u : all_digits (NilEmpty.string_of_uint u) = true.
Proof. induction u; cbn; auto. Qed.

Lemma all_digits_decimal n : all_digits (decimal n) = true.
Proof.
  unfold decimal, NilZero.string_of_uint.
  destruct (N.to_uint (Z.to_N n)) eqn:E; try reflexivity;
    rewrite <- E; apply all_digits_uint.
Qed.

Lemma length_decimal n : (1 <= String.length (decimal n))%nat.
Proof.
  unfold decimal, NilZero.string_of_uint.
  destruct (N.to_uint (Z.to_N n)); cbn; lia.
Qed.

Lemma all_digits_zeros n : all_digits (zeros n) = true.
Proof. induction n; cbn; auto. Qed.

Lemma length_zeros n : String.length (zeros n) = n.
Proof. induction n; cbn; auto. Qed.

Lemma all_digits_padded n k :
  all_digits (ToZeroPaddedDecimalString n k) = true.
Proof.
  unfold ToZeroPaddedDecimalString.
  now rewrite all_digits_app, all_digits_zeros, all_digits_decimal.
Qed.

Lemma length_padded n k :
  (k <= String.length (ToZeroPaddedDecimalString n k))%nat.
Proof.
  unfold ToZeroPaddedDecimalString. rewrite length_app, length_zeros. lia.
Qed.

Lemma length_decimal_below_100 n :
  0 <= n < 100 -> (String.length (decimal n) <= 2)%nat.
Proof.
  intros Hn. rewrite <- (Z2Nat.id n) by lia.
  assert (Hk : (Z.to_nat n < 100)%nat) by lia.
  revert Hk. generalize (Z.to_nat n). clear n Hn. intros k Hk.
  do 100 (destruct k as [|k]; [vm_compute; lia|]). lia.
Qed.

Lemma length_day t :
  String.length (ToZeroPaddedDecimalString (DateFromTime t) 2) = 2%nat.
Proof.
  unfold ToZeroPaddedDecimalString. rewrite length_app, length_zeros.
  pose proof (DateFromTime_bounds t).
  pose proof (length_decimal (DateFromTime t)).
  pose proof (length_decimal_below_100 (DateFromTime t) ltac:(lia)). lia.
Qed.

Lemma nth_name z (names : list string) :
  0 <= z < Z.of_nat (List.length names) ->
  In (nth (Z.to_nat z) names "") names.
Proof. intros Hz. apply nth_In. lia. Qed.

(** The date string of every time value has the shape
    weekday, month, two-digit day, year. *)
Lemma DateString_formatted tv : display_formatted (DateString tv).
Proof.
  unfold DateString, display_formatted.
  exists (nth (Z.to_nat (WeekDay tv)) weekdayNames ""),
         (nth (Z.to_nat (MonthFromTime tv)) monthNames ""),
         (ToZeroPaddedDecimalString (DateFromTime tv) 2),
         (if (0 <=? YearFromTime tv)%Z then "" else "-"),
         (ToZeroPaddedDecimalString (Z.abs (YearFromTime tv)) 4).
  repeat split.
  - apply nth_name. pose proof (WeekDay_bounds tv). cbn. lia.
  - apply nth_name. pose proof (MonthFromTime_bounds tv). cbn. lia.
  - apply length_day.
  - apply all_digits_padded.
  - destruct (0 <=? YearFromTime tv)%Z; auto.
  - apply length_padded.
  - apply all_digits_padded.
Qed.

Lemma toDateString_formatted `{Platform} tv :
  display_formatted (toDateString (Some tv)).
Proof. apply DateString_formatted. Qed.

End Display.

(* ================================================================== *)
(** ** The logs of a user *)

Section Logs.

Context `{Platform}.

Lemma filter_same {A} (f g : A -> bool) (l : list A) :
  (forall x, f x = g x) -> filter f l = filter g l.
Proof.
  intros Hfg. induction l as [|a l IH]; cbn; [reflexivity|].
  now rewrite Hfg, IH.
Qed.

(** The query the logs handler sends, in terms of the two bounds. *)
Lemma findExercises_dateFilter s _id oid from to lim :
  castObjectId _id = Some oid ->
  Mongo.findExercises _id (dateFilter from to) lim s =
  if unparseable (bound from) || unparseable (bound to)
  then inl CastError
  else Mongo.apply_limit lim (selected oid (bound from) (bound to) s).
Proof.
  intros Hc. unfold Mongo.findExercises, dateFilter, bound, selected, new_Date.
  rewrite Hc.
  destruct (field_truthy from), (field_truthy to); cbn [orb];
    try destruct (Date_parse (text from)) as [a|];
    try destruct (Date_parse (text to)) as [b|];
    cbn; try reflexivity; f_equal; apply filter_same; intros e;
    destruct (Exercise.date e); cbn;
    rewrite ?andb_true_r; reflexivity.
Qed.

Lemma in_range_spec lo hi d :
  lo <> Unparseable -> hi <> Unparseable ->
  in_range lo hi d = true <->
  (forall a, lo = At a -> exists t, d = Some t /\ a <= t) /\
  (forall b, hi = At b -> exists t, d = Some t /\ t <= b).
Proof.
  intros Hlo Hhi.
  destruct lo as [|a|]; [| |contradiction];
    (destruct hi as [|b|]; [| |contradiction]);
    destruct d as [t|]; cbn; rewrite ?andb_true_iff, ?Z.leb_le.
  all: split;
    [ intros Hr; split; intros x Hx;
      try discriminate Hx; try discriminate Hr;
      injection Hx as <-; exists t; (split; [reflexivity|tauto])
    | intros [H1 H2];
      try (destruct (H1 _ eq_refl) as [t1 [E1 L1]]);
      try (destruct (H2 _ eq_refl) as [t2 [E2 L2]]);
      try discriminate;
      try (injection E1 as <-); try (injection E2 as <-);
      auto ].
Qed.

Lemma findExercises_limit s _id cond lim matching :
  Mongo.findExercises _id cond None s = inr matching ->
  Mongo.findExercises _id cond lim s = Mongo.apply_limit lim matching.
Proof.
  unfold Mongo.findExercises.
  destruct (castObjectId _id); [|discriminate].
  destruct cond as [c|].
  - destruct (Mongo.cast_cond c) as [|[lo hi]]; [discriminate|].
    cbn. now intros [= ->].
  - cbn. now intros [= ->].
Qed.

Lemma integer_of_zero q : (q == 0)%Q -> integer_of (Finite q) = Some 0.
Proof.
  unfold Qeq. cbn. intros Hq.
  assert (Hn : Qnum q = 0) by lia.
  rewrite Hn. reflexivity.
Qed.

Lemma query_limit_zero limit :
  zero_limit limit ->
  query_limit limit = None \/
  exists q, query_limit limit = Some (Finite q) /\ (q == 0)%Q.
Proof.
  intros (l & q & -> & Hl & Hq). unfold query_limit.
  destruct (field_truthy (Some l)); [|now left].
  right. exists q. cbn. now rewrite Hl.
Qed.

Lemma query_limit_positive limit n :
  positive_limit limit n ->
  forall {A} (docs : list A),
    Mongo.apply_limit (query_limit limit) docs = inr (firstn n docs).
Proof.
  intros (Ht & z & Hz & Hpos & ->) A docs. unfold query_limit.
  rewrite Ht. cbn [Number]. unfold Mongo.apply_limit. rewrite Hz.
  destruct (Z.eqb_spec z 0); [lia|].
  destruct (Z.ltb_spec 0 z); [reflexivity|lia].
Qed.

(** C1, as the handler has it.  For the logs of a stored user: a [from]
    or [to] that is absent or empty imposes no restriction; one that
    parses restricts the exercises to those dated at or after [from] and
    at or before [to], both bounds included and both combining; one that
    does not parse makes the query fail, which is answered with 500. *)
Theorem getLogs_date_range s _id from to limit user :
  Mongo.findById _id s = inr (Some user) ->
  (bound from = Unparseable \/ bound to = Unparseable ->
   run (getLogs _id from to limit) s =
     (Responded (status_json 500 (ErrorBody "Server error")), s)) /\
  (bound from <> Unparseable -> bound to <> Unparseable ->
   let matching := selected (User._id user) (bound from) (bound to) s in
   run (getLogs _id from to limit) s =
     (match Mongo.apply_limit (query_limit limit) matching with
      | inr docs => logs_view user docs
      | inl _ => server_error
      end, s) /\
   forall e,
     In e matching <->
     In e (exercises s) /\ Exercise.userId e = User._id user /\
     (forall a, bound from = At a ->
        exists t, Exercise.date e = Some t /\ a <= t) /\
     (forall b, bound to = At b ->
        exists t, Exercise.date e = Some t /\ t <= b)).
Proof.
  intros Hfind. destruct (findById_found _ _ _ Hfind) as [_ Hcast].
  pose proof (run_getLogs s _id from to limit) as Hrun.
  rewrite Hfind, (findExercises_dateFilter s _id _ from to _ Hcast) in Hrun.
  split.
  - intros Hbad. rewrite Hrun.
    destruct Hbad as [-> | ->]; cbn; rewrite ?orb_true_r; reflexivity.
  - intros Hlo Hhi matching. split.
    + rewrite Hrun.
      destruct (bound from), (bound to); try contradiction; cbn;
        fold matching; destruct (Mongo.apply_limit _ matching); reflexivity.
    + intros e. unfold matching, selected.
      rewrite filter_In, andb_true_iff, (in_range_spec _ _ _ Hlo Hhi).
      unfold Mongo.owned_by. rewrite N.eqb_eq. tauto.
Qed.

(** Whatever the limit, the count of a logs answer is the length of its
    log. *)
Lemma getLogs_count s _id from to limit username count id log s' :
  run (getLogs _id from to limit) s =
    (Responded (json (LogsBody username count id log)), s') ->
  count = List.length log.
Proof.
  rewrite run_getLogs.
  destruct (Mongo.findById _id s) as [|[user|]]; try discriminate.
  destruct (Mongo.findExercises _ _ _ s) as [|docs]; [discriminate|].
  unfold logs_view. intros [= _ <- _ <- _]. now rewrite length_map.
Qed.

(** C5, as the handler has it.  When the limit of a logs request is a
    positive integer [n], the log holds the first [n] of the matching
    exercises, in the order the store returns them (so at most [n]
    entries), and the count is the number of entries of the log. *)
Theorem getLogs_positive_limit s _id from to limit user matching n :
  Mongo.findById _id s = inr (Some user) ->
  Mongo.findExercises _id (dateFilter from to) None s = inr matching ->
  positive_limit limit n ->
  exists log,
    run (getLogs _id from to limit) s =
      (Responded (json (LogsBody (User.username user) (List.length log)
                          (User._id user) log)), s) /\
    log = map logEntry (firstn n matching) /\
    (List.length log <= n)%nat.
Proof.
  intros Hfind Hall Hlim. exists (map logEntry (firstn n matching)).
  split; [|split; [reflexivity|]].
  - rewrite run_getLogs, Hfind, (findExercises_limit _ _ _ _ _ Hall).
    rewrite (query_limit_positive _ _ Hlim). unfold logs_view.
    now rewrite length_map.
  - rewrite length_map. apply firstn_le_length.
Qed.

(** C10.  When the limit of a logs request is a string whose Number is
    zero, the log holds every matching exercise: the answer is the one
    given without a limit. *)
Theorem getLogs_zero_limit s _id from to limit user matching :
  Mongo.findById _id s = inr (Some user) ->
  Mongo.findExercises _id (dateFilter from to) None s = inr matching ->
  zero_limit limit ->
  run (getLogs _id from to limit) s =
    (Responded (json (LogsBody (User.username user) (List.length matching)
                        (User._id user) (map logEntry matching))), s) /\
  run (getLogs _id from to limit) s = run (getLogs _id from to None) s.
Proof.
  intros Hfind Hall Hzero.
  rewrite !run_getLogs, Hfind, !(findExercises_limit _ _ _ _ _ Hall).
  destruct (query_limit_zero _ Hzero) as [-> | (q & -> & Hq)].
  - cbn. auto.
  - unfold Mongo.apply_limit. rewrite (integer_of_zero q Hq). cbn. auto.
Qed.

End Logs.

(* ================================================================== *)
(** ** Dates in the answers *)

Section ReturnedDates.

Context `{Platform}.

Lemma incl_firstn {A} k (l : list A) : incl (firstn k l) l.
Proof.
  revert k. induction l as [|a l IH]; intros [|k]; cbn;
    try apply incl_nil_l.
  intros x [<-|Hx]; [now left|right; now apply (IH k)].
Qed.

Lemma apply_limit_incl {A} lim (l docs : list A) :
  Mongo.apply_limit lim l = inr docs -> incl docs l.
Proof.
  unfold Mongo.apply_limit.
  destruct lim as [n|]; [|intros [= <-]; apply incl_refl].
  destruct (integer_of n) as [z|].
  - destruct (z =? 0)%Z; [intros [= <-]; apply incl_refl|].
    destruct (0 <? z)%Z; [intros [= <-]; apply incl_firstn|].
    destruct (cursor_limit_other _ _); [|discriminate].
    intros [= <-]; apply incl_firstn.
  - destruct (cursor_limit_other _ _); [|discriminate].
    intros [= <-]; apply incl_firstn.
Qed.

Lemma findExercises_incl s _id cond lim docs :
  Mongo.findExercises _id cond lim s = inr docs -> incl docs (exercises s).
Proof.
  unfold Mongo.findExercises.
  destruct (castObjectId _id); [|discriminate].
  destruct cond as [c|].
  - destruct (Mongo.cast_cond c) as [|[lo hi]]; [discriminate|].
    intros Hl x Hx. apply (apply_limit_incl _ _ _ Hl) in Hx.
    now apply filter_In in Hx.
  - intros Hl x Hx. apply (apply_limit_incl _ _ _ Hl) in Hx.
    now apply filter_In in Hx.
Qed.

(** C7.  The exercise a post answers with carries the date string of the
    date that was stored, and every entry of a logs answer carries the
    date string of the stored date of its exercise; the store keeps the
    time value, and the date string has the shape weekday, month,
    two-digit day, year, as in "Mon Jan 01 2024". *)
Theorem returned_dates_display_formatted :
  (forall s _id description duration date eid now r s',
     run (appendExercise _id description duration date eid now) s
       = (Responded r, s') ->
     status r = 200 ->
     exists doc t,
       s' = add_exercise doc s /\
       Exercise.date doc = Some t /\
       (exists id username,
          body r = ExerciseBody id username (Exercise.description doc)
                     (Exercise.duration doc) (toDateString (Some t))) /\
       display_formatted (toDateString (Some t))) /\
  (forall s _id from to limit r s',
     dates_valid s ->
     run (getLogs _id from to limit) s = (Responded r, s') ->
     status r = 200 ->
     exists docs username id,
       body r = LogsBody username (List.length docs) id (map logEntry docs) /\
       incl docs (exercises s) /\
       Forall (fun e => exists t,
                 Exercise.date e = Some t /\
                 log_date (logEntry e) = toDateString (Some t) /\
                 display_formatted (log_date (logEntry e))) docs) /\
  @toDateString Node.utc (Some 1704067200000) = "Mon Jan 01 2024".
Proof.
  split; [|split; [|reflexivity]].
  - intros s _id description duration date eid now r s' Hrun Hok.
    rewrite run_appendExercise in Hrun.
    destruct (negb (field_truthy description) || negb (truthy duration));
      [inversion Hrun; subst; discriminate Hok|].
    destruct (Mongo.findById _id s) as [err|[user|]];
      try (inversion Hrun; subst; discriminate Hok).
    cbv zeta in Hrun.
    destruct (Mongo.exercise_valid _) eqn:Hv;
      [|inversion Hrun; subst; discriminate Hok].
    inversion Hrun; subst; clear Hrun.
    unfold Mongo.exercise_valid in Hv. apply andb_prop in Hv as [_ Hv].
    set (doc := new_exercise user description duration date eid now) in *.
    destruct (Exercise.date doc) as [t|] eqn:Ht; [|discriminate].
    exists doc, t. split; [reflexivity|split; [exact Ht|split]].
    + exists (User._id user), (User.username user).
      change (exerciseDate date now = Some t) in Ht.
      cbn. unfold toDateStringSafe. now rewrite Ht.
    + apply toDateString_formatted.
  - intros s _id from to limit r s' Hvalid Hrun Hok.
    rewrite run_getLogs in Hrun.
    destruct (Mongo.findById _id s) as [err|[user|]];
      try (inversion Hrun; subst; discriminate Hok).
    destruct (Mongo.findExercises _ _ _ s) as [|docs] eqn:Hfind;
      [inversion Hrun; subst; discriminate Hok|].
    inversion Hrun; subst; clear Hrun.
    exists docs, (User.username user), (User._id user).
    split; [reflexivity|].
    pose proof (findExercises_incl _ _ _ _ _ Hfind) as Hincl.
    split; [exact Hincl|].
    apply Forall_forall. intros e He.
    unfold dates_valid in Hvalid. rewrite Forall_forall in Hvalid.
    specialize (Hvalid e (Hincl e He)).
    destruct (Exercise.date e) as [t|] eqn:Ht; [|discriminate].
    exists t. cbn. unfold toDateStringSafe. rewrite Ht.
    split; [reflexivity|split; [reflexivity|]].
    apply toDateString_formatted.
Qed.

End ReturnedDates.

(* ================================================================== *)
(** ** The properties at work on a concrete store *)

Section OnNode.

#[local] Existing Instance Node.utc.

Lemma sample_alice :
  Mongo.findById Sample.alice_id Sample.store = inr (Some Sample.alice).
Proof. reflexivity. Qed.

Lemma sample_dates_valid : dates_valid Sample.store.
Proof. exact (served_dates_valid Sample.requests). Qed.

Lemma getLogs_date_range_witness :
  Mongo.findById Sample.alice_id Sample.store = inr (Some Sample.alice) /\
  exists e2 e3 e4,
    selected 1%N (bound (Some "2023-02-15")) (bound (Some "2023-04-15"))
      Sample.store = [e2; e3; e4] /\
    run (getLogs Sample.alice_id (Some "2023-02-15") (Some "2023-04-15") None)
        Sample.store
    = (logs_view Sample.alice [e2; e3; e4], Sample.store).
Proof.
  split; [exact sample_alice|].
  destruct (getLogs_date_range Sample.store Sample.alice_id
              (Some "2023-02-15") (Some "2023-04-15") None Sample.alice
              sample_alice) as [_ Hrange].
  destruct Hrange as [Hrun _]; [discriminate|discriminate|].
  do 3 eexists. split; [reflexivity|exact Hrun].
Defined.

(** C1, as it is worded, fails: a [from] that does not parse is answered
    with 500, not with the unrestricted log (which holds five entries). *)
Lemma getLogs_unparseable_from_is_an_error :
  Mongo.findById Sample.alice_id Sample.store = inr (Some Sample.alice) /\
  Date_parse "abc" = None /\
  fst (run (getLogs Sample.alice_id (Some "abc") None None) Sample.store)
    = Responded (status_json 500 (ErrorBody "Server error")) /\
  fst (run (getLogs Sample.alice_id None None None) Sample.store)
    = logs_view Sample.alice (exercises Sample.store) /\
  List.length (exercises Sample.store) = 5%nat.
Proof. repeat split. Qed.

Lemma getLogs_positive_limit_witness :
  positive_limit (Some "2") 2 /\
  exists e1 e2,
    run (getLogs Sample.alice_id None None (Some "2")) Sample.store
    = (Responded (json (LogsBody "alice" 2 1%N [logEntry e1; logEntry e2])),
       Sample.store).
Proof.
  assert (Hlim : positive_limit (Some "2") 2).
  { split; [reflexivity|]. exists 2. repeat split; lia. }
  split; [exact Hlim|].
  destruct (getLogs_positive_limit Sample.store Sample.alice_id None None
              (Some "2") Sample.alice (exercises Sample.store) 2
              sample_alice eq_refl Hlim) as (log & Hrun & Hlog & _).
  do 2 eexists. rewrite Hrun, Hlog. reflexivity.
Defined.

(** C5, as it is worded, fails: with the limit "0", whose Number is 0,
    the log holds all five exercises of the user; so it does with a limit
    that is present and empty, whose Number is 0 as well. *)
Lemma getLogs_limit_zero_returns_all :
  (Number (Str "0") = of_Z 0 /\
   exists log,
     fst (run (getLogs Sample.alice_id None None (Some "0")) Sample.store)
       = Responded (json (LogsBody "alice" 5 1%N log)) /\
     List.length log = 5%nat) /\
  (Number (Str "") = of_Z 0 /\
   exists log,
     fst (run (getLogs Sample.alice_id None None (Some "")) Sample.store)
       = Responded (json (LogsBody "alice" 5 1%N log)) /\
     List.length log = 5%nat).
Proof.
  split; (split; [reflexivity|]); eexists; split; reflexivity.
Qed.

Lemma getLogs_zero_limit_witness :
  zero_limit (Some "0") /\
  run (getLogs Sample.alice_id None None (Some "0")) Sample.store
  = run (getLogs Sample.alice_id None None None) Sample.store.
Proof.
  assert (Hzero : zero_limit (Some "0")).
  { exists "0", (inject_Z 0). repeat split. }
  split; [exact Hzero|].
  exact (proj2 (getLogs_zero_limit Sample.store Sample.alice_id None None
                  (Some "0") Sample.alice (exercises Sample.store)
                  sample_alice eq_refl Hzero)).
Defined.

Lemma appendExercise_stored_date_witness :
  is_YYYY_MM_DD "2023-06-15" /\
  run (appendExercise Sample.alice_id (Some "swim") (Str "45")
         (Some "2023-06-15") 16%N 99) Sample.store
  = (Responded (json (ExerciseBody 1%N "alice" "swim" (of_Z 45)
                        "Thu Jun 15 2023")),
     add_exercise
       {| Exercise._id := 16%N; Exercise.userId := 1%N;
          Exercise.description := "swim"; Exercise.duration := of_Z 45;
          Exercise.date := Some 1686787200000 |} Sample.store).
Proof.
  assert (Hnum : isNaN (Number (Str "45")) = false) by reflexivity.
  destruct (appendExercise_stored_date Sample.store Sample.alice_id
              (Some "swim") (Str "45") (Some "2023-06-15") 16%N 99
              Sample.alice eq_refl eq_refl Hnum sample_alice)
    as (Hshape & _ & Hgiven).
  assert (Hd : is_YYYY_MM_DD "2023-06-15") by (now apply Hshape).
  split; [exact Hd|].
  exact (Hgiven "2023-06-15" eq_refl Hd).
Defined.

Lemma appendExercise_keeps_dates_valid_witness :
  dates_valid Sample.store /\
  dates_valid
    (snd (run (appendExercise Sample.alice_id (Some "walk") (Str "10")
                 (Some "2024-13-45") 16%N 99) Sample.store)).
Proof.
  split; [exact sample_dates_valid|].
  exact (proj2 (appendExercise_keeps_dates_valid Sample.store Sample.alice_id
                  (Some "walk") (Str "10") (Some "2024-13-45") 16%N 99)
               sample_dates_valid).
Defined.

Lemma returned_dates_display_formatted_witness :
  exists doc t,
    snd (run (appendExercise Sample.alice_id (Some "swim") (Str "45")
                (Some "2023-06-15") 16%N 99) Sample.store)
      = add_exercise doc Sample.store /\
    Exercise.date doc = Some t /\
    display_formatted (toDateString (Some t)).
Proof.
  edestruct (proj1 returned_dates_display_formatted Sample.store
               Sample.alice_id (Some "swim") (Str "45") (Some "2023-06-15")
               16%N 99) as (doc & t & Hs & Hd & _ & Hf).
  - vm_compute. reflexivity.
  - reflexivity.
  - exists doc, t. cbn [snd] in Hs |- *. split; [|split; assumption].
    vm_compute. vm_compute in Hs. exact Hs.
Defined.

(** The scenario of the specification: alice posts a run of 30 minutes on
    2023-01-15 and reads her log. *)
Example scenario_alice :
  let s0 := serve_all [PostUser (Some "alice") 1%N 0] empty_store in
  let s1 := serve_all [PostExercise Sample.alice_id (Some "run") (Str "30")
                         (Some "2023-01-15") 11%N 0] s0 in
  fst (run (getLogs Sample.alice_id None None None) s1) =
    Responded (json (LogsBody "alice" 1 1%N
      [{| log_description := "run"; log_duration := of_Z 30;
          log_date := "Sun Jan 15 2023" |}])).
Proof. reflexivity. Qed.

End OnNode.

(* ================================================================== *)
(** ** What every request keeps *)

Section Invariants.

Context `{Platform}.

Lemma apply_writes_app ws ws' s :
  apply_writes (ws ++ ws') s = apply_writes ws' (apply_writes ws s).
Proof. unfold apply_writes. apply fold_left_app. Qed.


Lemma run_as_run_with {R} (h : Handler R) s : run h s = run_with [] h s.
Proof.
  revert s. induction h as [r|X op k IH]; intros s; cbn; [reflexivity|].
  destruct (Mongo.exec op s) as [x s']. apply IH.
Qed.







(** X1.  A user post without a username, or with the empty one, is
    answered 400 "username is required" before any storage call: under
    every schedule the store is the one the handler started with. *)
Theorem createOrGetUser_missing_username sched s username oid now :
  username = None \/ username = Some "" ->
  run_with sched (createOrGetUser username oid now) s =
    (Responded (status_json 400 (ErrorBody "username is required")), s).
Proof. intros [-> | ->]; reflexivity. Qed.

(** X2.  Every request is answered, with 200 and a body that is no error
    object, or with 400, 404 or 500 and an error object; in the second
    case the store is left as it was. *)
Theorem answers_and_failures r s :
  exists resp,
    fst (run (handler r) s) = Responded resp /\
    ((status resp = 200 /\ is_error (body resp) = false) \/
     ((status resp = 400 \/ status resp = 404 \/ status resp = 500) /\
      is_error (body resp) = true /\
      snd (run (handler r) s) = s)).
Proof.
  destruct r as [username oid now| |_id d n dt eid now|_id f t l];
    cbn [handler].
  - rewrite run_createOrGetUser.
    destruct (negb (field_truthy username)).
    + eexists; split; [reflexivity|right]; cbn; auto.
    + destruct (Mongo.findOne _ s);
        eexists; (split; [reflexivity|left]); cbn; auto.
  - rewrite run_listUsers. eexists; split; [reflexivity|left]; cbn; auto.
  - rewrite run_appendExercise.
    destruct (negb (field_truthy d) || negb (truthy n));
      [eexists; split; [reflexivity|right]; cbn; auto|].
    destruct (Mongo.findById _id s) as [|[user|]];
      try (eexists; split; [reflexivity|right]; cbn; auto; fail).
    cbv zeta. destruct (Mongo.exercise_valid _).
    + eexists; split; [reflexivity|left]; cbn; auto.
    + eexists; split; [reflexivity|right]; cbn; auto.
  - rewrite run_getLogs.
    destruct (Mongo.findById _id s) as [|[user|]];
      try (eexists; split; [reflexivity|right]; cbn; auto; fail).
    destruct (Mongo.findExercises _ _ _ s).
    + eexists; split; [reflexivity|right]; cbn; auto.
    + eexists; split; [reflexivity|left]; cbn; auto.
Qed.

Lemma exec_read_only X (op : Op X) s :
  match op with
  | User_save _ | Exercise_save _ => True
  | _ => snd (Mongo.exec op s) = s
  end.
Proof. destruct op; cbn; auto. Qed.

(** X3.  The two GET requests write nothing: under every schedule, the
    store they leave is the store they started with after a number of the
    batches of other requests' writes. *)
Theorem get_requests_write_nothing sched s _id from to limit :
  (exists k, snd (run_with sched listUsers s)
             = apply_writes (List.concat (firstn k sched)) s) /\
  (exists k, snd (run_with sched (getLogs _id from to limit) s)
             = apply_writes (List.concat (firstn k sched)) s).
Proof.
  assert (Hone : forall sc st,
            apply_writes (hd [] sc) st = apply_writes (List.concat (firstn 1 sc)) st).
  { intros [|b sc] st; cbn; [reflexivity|now rewrite app_nil_r]. }
  assert (Htwo : forall sc st,
            apply_writes (hd [] (tl sc)) (apply_writes (hd [] sc) st)
            = apply_writes (List.concat (firstn 2 sc)) st).
  { intros [|b [|b' sc]] st; cbn; rewrite ?app_nil_r; try reflexivity.
    now rewrite apply_writes_app. }
  split.
  - exists 1%nat. cbn. apply Hone.
  - unfold getLogs. cbn [try_catch run_with Mongo.exec].
    destruct (Mongo.findById _id _) as [|[user|]]; cbn;
      try (exists 1%nat; apply Hone).
    destruct (Mongo.findExercises _ _ _ _); cbn;
      exists 2%nat; apply Htwo.
Qed.

(** X4.  Requests only append: a request leaves every stored user and
    exercise where it was and adds at most one document in all; so does a
    sequence of requests, for any number of documents. *)
Theorem requests_only_append :
  (forall r s, exists us es,
     users (snd (run (handler r) s)) = (users s ++ us)%list /\
     exercises (snd (run (handler r) s)) = (exercises s ++ es)%list /\
     (List.length us + List.length es <= 1)%nat) /\
  (forall rs s, exists us es,
     users (serve_all rs s) = (users s ++ us)%list /\
     exercises (serve_all rs s) = (exercises s ++ es)%list).
Proof.
  assert (Hsame : forall s, exists us es : list _,
            users s = (users s ++ us)%list /\
            exercises s = (exercises s ++ es)%list /\
            (List.length us + List.length es <= 1)%nat).
  { intros s. exists [], []. rewrite !app_nil_r. cbn. auto. }
  assert (Hstep : forall r s, exists us es,
     users (snd (run (handler r) s)) = (users s ++ us)%list /\
     exercises (snd (run (handler r) s)) = (exercises s ++ es)%list /\
     (List.length us + List.length es <= 1)%nat).
  { intros r s.
    destruct r as [username oid now| |_id d n dt eid now|_id f t l];
      cbn [handler].
    - rewrite run_createOrGetUser.
      destruct (negb (field_truthy username)); [apply Hsame|].
      destruct (Mongo.findOne _ s); [apply Hsame|].
      exists [new_user username oid now], []. cbn.
      rewrite app_nil_r. auto.
    - apply Hsame.
    - destruct (appendExercise_store s _id d n dt eid now)
        as [-> | (user & _ & ->)]; [apply Hsame|].
      eexists [], [_]. cbn. rewrite app_nil_r. auto.
    - rewrite run_getLogs.
      destruct (Mongo.findById _id s) as [|[user|]]; try apply Hsame.
      destruct (Mongo.findExercises _ _ _ s); apply Hsame. }
  split; [exact Hstep|].
  intros rs. unfold serve_all.
  induction rs as [|r rs IH]; intros s; cbn.
  - exists [], []. now rewrite !app_nil_r.
  - destruct (Hstep r s) as (us & es & Hu & He & _).
    destruct (IH (snd (run (handler r) s))) as (us' & es' & Hu' & He').
    exists (us ++ us')%list, (es ++ es')%list.
    rewrite Hu', He', Hu, He, !app_assoc. auto.
Qed.

Lemma createOrGetUser_under_schedule sched s name oid now :
  name <> "" ->
  exists u,
    Mongo.findOne name
      (snd (run_with sched (createOrGetUser (Some name) oid now) s))
      = Some u /\
    fst (run_with sched (createOrGetUser (Some name) oid now) s)
      = Responded (json (UserBody name (User._id u))).
Proof.
  intros Hn. rewrite run_with_createOrGetUser by exact Hn. cbv zeta.
  set (s1 := apply_writes (hd [] sched) s).
  set (s2 := apply_writes (hd [] (tl sched)) s1).
  set (s3 := apply_writes (hd [] (tl (tl sched))) s2).
  destruct (Mongo.findOne name s1) as [user|] eqn:H1.
  - exists user. cbn. split; [exact H1|]. unfold user_view.
    now destruct (findOne_username _ _ _ H1) as [-> _].
  - destruct (Mongo.findOne name s2) as [other|] eqn:H2.
    + assert (H3 : Mongo.findOne name s3 = Some other)
        by (now apply findOne_apply_writes).
      rewrite H3. exists other. cbn. split; [exact H3|]. unfold user_view.
      now destruct (findOne_username _ _ _ H2) as [-> _].
    + exists (new_user (Some name) oid now). cbn. split; [|reflexivity].
      now apply findOne_add_user.
Qed.

(** X6.  Under every schedule, a user post with a non-empty username ends
    with that username stored, and answers with the id of the stored
    record that the username finds. *)
Theorem createOrGetUser_answers_stored_record sched s name oid now :
  name <> "" ->
  exists u,
    Mongo.findOne name
      (snd (run_with sched (createOrGetUser (Some name) oid now) s))
      = Some u /\
    fst (run_with sched (createOrGetUser (Some name) oid now) s)
      = Responded (json (UserBody name (User._id u))).
Proof. apply createOrGetUser_under_schedule. Qed.

(** X7.  Two user posts with the same non-empty username answer with the
    same id, whatever other requests write during and between them. *)
Theorem createOrGetUser_same_id_under_schedules
    sched sched' s name oid now oid' now' :
  name <> "" ->
  let first := run_with sched (createOrGetUser (Some name) oid now) s in
  fst (run_with sched' (createOrGetUser (Some name) oid' now') (snd first))
    = fst first.
Proof.
  intros Hn first.
  destruct (createOrGetUser_under_schedule sched s name oid now Hn)
    as (u & Hu & Hr).
  fold first in Hu, Hr. rewrite Hr.
  rewrite run_with_createOrGetUser by exact Hn. cbv zeta.
  rewrite (findOne_apply_writes name (hd [] sched') _ u Hu).
  cbn. unfold user_view.
  now destruct (findOne_username _ _ _ Hu) as [-> _].
Qed.

End Invariants.

(* ================================================================== *)
(** ** Posts and the logs they show up in *)

Section PostsAndLogs.

Context `{Platform}.

Lemma findById_add_exercise _id doc s :
  Mongo.findById _id (add_exercise doc s) = Mongo.findById _id s.
Proof. reflexivity. Qed.

Lemma findExercises_unfiltered s _id oid :
  castObjectId _id = Some oid ->
  Mongo.findExercises _id (dateFilter None None) (query_limit None) s =
    inr (filter (Mongo.owned_by oid) (exercises s)).
Proof. intros Hc. unfold Mongo.findExercises. now rewrite Hc. Qed.

Lemma findExercises_add_other s _id oid cond lim doc :
  castObjectId _id = Some oid ->
  Mongo.owned_by oid doc = false ->
  Mongo.findExercises _id cond lim (add_exercise doc s) =
  Mongo.findExercises _id cond lim s.
Proof.
  intros Hc Hother. unfold Mongo.findExercises. rewrite Hc. cbn [exercises add_exercise].
  destruct cond as [c|].
  - destruct (Mongo.cast_cond c) as [|[lo hi]]; [reflexivity|].
    rewrite filter_app. cbn. rewrite Hother. cbn. now rewrite app_nil_r.
  - rewrite filter_app. cbn. rewrite Hother. now rewrite app_nil_r.
Qed.

Lemma findExercises_owned s _id cond lim docs oid :
  castObjectId _id = Some oid ->
  Mongo.findExercises _id cond lim s = inr docs ->
  Forall (fun e => In e (exercises s) /\ Exercise.userId e = oid) docs.
Proof.
  intros Hc. unfold Mongo.findExercises. rewrite Hc.
  assert (Hgen : forall p l,
            (forall e, p e = true -> Mongo.owned_by oid e = true) ->
            Mongo.apply_limit lim (filter p l) = inr docs ->
            Forall (fun e => In e l /\ Exercise.userId e = oid) docs).
  { intros p l Hp Hl. apply Forall_forall. intros e He.
    apply (apply_limit_incl _ _ _ Hl) in He.
    apply filter_In in He as [Hin Hpe]. split; [exact Hin|].
    apply Hp in Hpe. now apply N.eqb_eq in Hpe. }
  destruct cond as [c|].
  - destruct (Mongo.cast_cond c) as [|[lo hi]]; [discriminate|].
    apply Hgen. intros e He. now apply andb_prop in He as [He _].
  - apply Hgen. auto.
Qed.

(** What a post that is answered 200 has done. *)
Lemma appendExercise_ok s _id description duration date eid now r s' :
  run (appendExercise _id description duration date eid now) s
    = (Responded r, s') ->
  status r = 200 ->
  exists user,
    Mongo.findById _id s = inr (Some user) /\
    Mongo.exercise_valid
      (new_exercise user description duration date eid now) = true /\
    Responded r =
      exercise_view user
        (new_exercise user description duration date eid now) /\
    s' = add_exercise (new_exercise user description duration date eid now) s.
Proof.
  rewrite run_appendExercise. intros Hrun Hok.
  destruct (negb (field_truthy description) || negb (truthy duration));
    [inversion Hrun; subst; discriminate Hok|].
  destruct (Mongo.findById _id s) as [err|[user|]] eqn:Hf;
    try (inversion Hrun; subst; discriminate Hok).
  cbv zeta in Hrun.
  destruct (Mongo.exercise_valid _) eqn:Hv;
    [|inversion Hrun; subst; discriminate Hok].
  exists user. injection Hrun as Hr Hs. repeat split; auto.
  now rewrite <- Hr.
Qed.

(** X8.  A post answered 200 shows up in the log: the unfiltered log of
    the user after the post is the log before it followed by one entry,
    the entry with the description, duration and date string of the
    answer. *)
Theorem posted_exercise_ends_the_log
    s _id description duration date eid now r s' :
  run (appendExercise _id description duration date eid now) s
    = (Responded r, s') ->
  status r = 200 ->
  exists user docs doc,
    run (getLogs _id None None None) s = (logs_view user docs, s) /\
    run (getLogs _id None None None) s'
      = (logs_view user (docs ++ [doc]), s') /\
    body r = ExerciseBody (User._id user) (User.username user)
               (log_description (logEntry doc))
               (log_duration (logEntry doc))
               (log_date (logEntry doc)).
Proof.
  intros Hrun Hok.
  destruct (appendExercise_ok _ _ _ _ _ _ _ _ _ Hrun Hok)
    as (user & Hf & _ & Hr & ->).
  destruct (findById_found _ _ _ Hf) as [_ Hc].
  set (doc := new_exercise user description duration date eid now) in *.
  exists user, (filter (Mongo.owned_by (User._id user)) (exercises s)), doc.
  split; [|split].
  - now rewrite run_getLogs, Hf, (findExercises_unfiltered _ _ _ Hc).
  - rewrite run_getLogs, findById_add_exercise, Hf,
      (findExercises_unfiltered _ _ _ Hc).
    cbn [exercises add_exercise]. rewrite filter_app. cbn [filter].
    unfold Mongo.owned_by at 2. cbn [Exercise.userId doc new_exercise].
    now rewrite N.eqb_refl.
  - injection Hr as ->. reflexivity.
Qed.

(** X9.  A post for one user leaves the logs of every other user as they
    were, whatever the filter and the limit. *)
Theorem post_leaves_other_logs
    s idA description duration date eid now idB a b from to limit :
  castObjectId idA = Some a ->
  castObjectId idB = Some b ->
  a <> b ->
  fst (run (getLogs idB from to limit)
         (snd (run (appendExercise idA description duration date eid now) s)))
  = fst (run (getLogs idB from to limit) s).
Proof.
  intros Ha Hb Hab.
  destruct (appendExercise_store s idA description duration date eid now)
    as [-> | (user & Hf & ->)]; [reflexivity|].
  destruct (findById_found _ _ _ Hf) as [_ Hc].
  rewrite Ha in Hc. injection Hc as ->.
  cbn [snd]. rewrite !run_getLogs, findById_add_exercise.
  rewrite (findExercises_add_other s idB b);
    [|exact Hb|unfold Mongo.owned_by; cbn; now apply N.eqb_neq].
  destruct (Mongo.findById idB s) as [|[other|]]; try reflexivity.
  destruct (Mongo.findExercises _ _ _ s); reflexivity.
Qed.

(** X10.  A logs answer holds exercises of the named user only: every
    entry comes from a stored exercise whose [userId] is the id of that
    user, whatever the filter and the limit. *)
Theorem logs_belong_to_user s _id from to limit r s' :
  run (getLogs _id from to limit) s = (Responded r, s') ->
  status r = 200 ->
  exists user docs,
    Mongo.findById _id s = inr (Some user) /\
    body r = LogsBody (User.username user) (List.length docs)
               (User._id user) (map logEntry docs) /\
    Forall (fun e => In e (exercises s) /\
                     Exercise.userId e = User._id user) docs.
Proof.
  rewrite run_getLogs. intros Hrun Hok.
  destruct (Mongo.findById _id s) as [err|[user|]] eqn:Hf;
    try (inversion Hrun; subst; discriminate Hok).
  destruct (Mongo.findExercises _ _ _ s) as [|docs] eqn:Hq;
    [inversion Hrun; subst; discriminate Hok|].
  inversion Hrun; subst; clear Hrun.
  destruct (findById_found _ _ _ Hf) as [_ Hc].
  exists user, docs. repeat split; auto.
  exact (findExercises_owned _ _ _ _ _ _ Hc Hq).
Qed.

Lemma filter_none {A} (f : A -> bool) (l : list A) :
  (forall x, f x = false) -> filter f l = [].
Proof.
  intros Hf. induction l as [|x l IH]; cbn; [reflexivity|].
  now rewrite Hf.
Qed.

Lemma filter_none_in {A} (f : A -> bool) (l : list A) :
  (forall x, In x l -> f x = false) -> filter f l = [].
Proof.
  induction l as [|x l IH]; cbn; intros Hf; [reflexivity|].
  rewrite (Hf x) by now left. apply IH. intros y Hy. apply Hf. now right.
Qed.

Lemma selected_empty_range oid a b s :
  b < a -> selected oid (At a) (At b) s = [].
Proof.
  intros Hba. unfold selected. apply filter_none. intros e.
  apply andb_false_iff. right.
  destruct (Exercise.date e) as [t|]; cbn; [|reflexivity].
  destruct (Z.leb_spec a t), (Z.leb_spec t b); try reflexivity; lia.
Qed.

(** X11.  When [from] lies after [to], no exercise matches: the logs
    answer without a limit is 200 with count 0 and an empty log, and no
    limit makes an answer hold an entry. *)
Theorem getLogs_empty_range s _id from to limit user a b :
  Mongo.findById _id s = inr (Some user) ->
  bound from = At a -> bound to = At b -> b < a ->
  run (getLogs _id from to None) s =
    (Responded (json (LogsBody (User.username user) 0 (User._id user) [])),
     s) /\
  (log_of (fst (run (getLogs _id from to limit) s)) = Some [] \/
   log_of (fst (run (getLogs _id from to limit) s)) = None).
Proof.
  intros Hf Hfrom Hto Hba.
  destruct (findById_found _ _ _ Hf) as [_ Hc].
  rewrite !run_getLogs, Hf,
    !(findExercises_dateFilter s _id _ from to _ Hc), Hfrom, Hto.
  cbn [unparseable orb]. rewrite (selected_empty_range _ _ _ _ Hba).
  split; [reflexivity|].
  destruct (Mongo.apply_limit (query_limit limit) []) as [|docs] eqn:Hl;
    [now right|].
  left. apply apply_limit_incl in Hl. apply incl_l_nil in Hl. now subst.
Qed.

(** X12.  A positive integer limit that is not below the number of
    matching exercises changes nothing: the answer is the one given
    without a limit. *)
Theorem getLogs_limit_not_reached s _id from to limit matching n :
  Mongo.findExercises _id (dateFilter from to) None s = inr matching ->
  positive_limit limit n ->
  (List.length matching <= n)%nat ->
  run (getLogs _id from to limit) s = run (getLogs _id from to None) s.
Proof.
  intros Hall Hlim Hn. rewrite !run_getLogs.
  destruct (Mongo.findById _id s) as [|[user|]]; try reflexivity.
  rewrite !(findExercises_limit _ _ _ _ _ Hall).
  rewrite (query_limit_positive _ _ Hlim). cbn.
  now rewrite firstn_all2.
Qed.

(** X13.  A logs request whose id names no stored user is answered 404
    "user not found" when the id is a well-formed ObjectId and 500
    otherwise; the store is left as it was. *)
Theorem getLogs_unknown_user s _id from to limit :
  ~ refers_to_user _id s ->
  run (getLogs _id from to limit) s =
    (match castObjectId _id with
     | Some _ => Responded (status_json 404 (ErrorBody "user not found"))
     | None => Responded (status_json 500 (ErrorBody "Server error"))
     end, s).
Proof.
  intros Hno. rewrite run_getLogs.
  destruct (findById_unknown _id s Hno) as [Hf|Hf]; rewrite Hf;
    unfold Mongo.findById in Hf;
    destruct (castObjectId _id); try discriminate; reflexivity.
Qed.

(** X21.  In every logs answer the count is the number of entries of the
    log, whatever the filter and the limit. *)
Theorem logs_count_is_log_length
    s _id from to limit username count id log s' :
  run (getLogs _id from to limit) s =
    (Responded (json (LogsBody username count id log)), s') ->
  count = List.length log /\ s' = s.
Proof.
  rewrite run_getLogs.
  destruct (Mongo.findById _id s) as [|[user|]]; try discriminate.
  destruct (Mongo.findExercises _ _ _ s) as [|docs]; [discriminate|].
  unfold logs_view. intros [= _ <- _ <- <-]. now rewrite length_map.
Qed.

(** X16.  A post whose duration is truthy but not a number (its Number
    is NaN) is answered 500 for a stored user, and nothing is stored. *)
Theorem appendExercise_non_numeric_duration
    s _id description duration date eid now user :
  field_truthy description = true ->
  truthy duration = true ->
  isNaN (Number duration) = true ->
  Mongo.findById _id s = inr (Some user) ->
  run (appendExercise _id description duration date eid now) s =
    (Responded (status_json 500 (ErrorBody "Server error")), s).
Proof.
  intros Hd Hn Hnan Hf.
  rewrite run_appendExercise, Hd, Hn, Hf. cbn [negb orb]. cbv zeta.
  unfold Mongo.exercise_valid. cbn [Exercise.duration new_exercise].
  rewrite Hnan. cbn [negb]. now rewrite andb_false_r.
Qed.

(** X17.  The field check looks at the string, not at its number: a
    duration given as a non-empty string is accepted whatever finite
    number it denotes, zero included, and is stored as that number. *)
Theorem appendExercise_string_duration
    s _id description l q date eid now user t :
  field_truthy description = true ->
  l <> "" ->
  StringToNumber l = Finite q ->
  Mongo.findById _id s = inr (Some user) ->
  exerciseDate date now = Some t ->
  let doc := {| Exercise._id := eid; Exercise.userId := User._id user;
                Exercise.description := text description;
                Exercise.duration := Finite q;
                Exercise.date := Some t |} in
  run (appendExercise _id description (Str l) date eid now) s =
    (exercise_view user doc, add_exercise doc s).
Proof.
  intros Hd Hl Hq Hf Ht doc.
  assert (Htruthy : truthy (Str l) = true).
  { cbn. destruct (String.eqb_spec l ""); [contradiction|reflexivity]. }
  rewrite run_appendExercise, Hd, Htruthy, Hf. cbn [negb orb]. cbv zeta.
  unfold new_exercise. cbn [Number]. rewrite Hq, Ht.
  unfold Mongo.exercise_valid. cbn.
  destruct description as [d|]; [|discriminate]. cbn in Hd |- *.
  now rewrite Hd.
Qed.

End PostsAndLogs.

(* ================================================================== *)
(** ** What the stored documents keep *)

Section StoredDocuments.

Context `{Platform}.

(** What one request does to the store. *)
Lemma request_step r s :
  snd (run (handler r) s) = s \/
  (exists u, snd (run (handler r) s) = add_user u s) \/
  (exists user doc,
     In user (users s) /\ Exercise.userId doc = User._id user /\
     snd (run (handler r) s) = add_exercise doc s).
Proof.
  destruct r as [username oid now| |_id d n dt eid now|_id f t l];
    cbn [handler].
  - rewrite run_createOrGetUser.
    destruct (negb (field_truthy username)); [now left|].
    destruct (Mongo.findOne _ s); [now left|].
    right; left. eexists. reflexivity.
  - now left.
  - destruct (appendExercise_store s _id d n dt eid now)
      as [-> | (user & Hf & ->)]; [now left|].
    right; right. destruct (findById_found _ _ _ Hf) as [Hin _].
    exists user, (new_exercise user d n dt eid now).
    split; [exact Hin|split; reflexivity].
  - rewrite run_getLogs.
    destruct (Mongo.findById _id s) as [|[user|]]; try now left.
    destruct (Mongo.findExercises _ _ _ s); now left.
Qed.

Lemma references_valid_step r s :
  references_valid s -> references_valid (snd (run (handler r) s)).
Proof.
  intros Hs.
  destruct (request_step r s)
    as [-> | [(u & ->) | (user & doc & Hin & Hid & ->)]]; [exact Hs| |].
  - unfold references_valid in *. cbn.
    eapply Forall_impl; [|exact Hs]. cbn.
    intros e (u0 & Hu0 & He). exists u0. split; [|exact He].
    apply in_or_app. now left.
  - unfold references_valid in *. cbn. apply Forall_app. split; [exact Hs|].
    constructor; [|constructor]. exists user. auto.
Qed.

(** X14.  Exercises keep referring to stored users: if every stored
    exercise belongs to a stored user, so it is after any sequence of
    requests. *)
Theorem exercises_keep_their_users rs s :
  references_valid s -> references_valid (serve_all rs s).
Proof.
  unfold serve_all. revert s.
  induction rs as [|r rs IH]; intros s Hs; cbn; [exact Hs|].
  apply IH. now apply references_valid_step.
Qed.




(** X18.  A user that a post has answered with is in the list of users:
    under every schedule, the list served after the post holds the
    username with the id of the answer. *)
Theorem created_user_is_listed sched s name oid now :
  name <> "" ->
  exists id l,
    fst (run_with sched (createOrGetUser (Some name) oid now) s)
      = Responded (json (UserBody name id)) /\
    fst (run listUsers
           (snd (run_with sched (createOrGetUser (Some name) oid now) s)))
      = Responded (json (UsersBody l)) /\
    In (name, id) l.
Proof.
  intros Hn.
  destruct (createOrGetUser_under_schedule sched s name oid now Hn)
    as (u & Hu & Hr).
  exists (User._id u). eexists. split; [exact Hr|].
  rewrite run_listUsers. split; [reflexivity|].
  destruct (findOne_username _ _ _ Hu) as [Hname Hin].
  apply in_map_iff. exists u. now rewrite Hname.
Qed.

(** X19.  A user that has just been created has an empty log: when the
    stored exercises all belong to stored users and the new id is not in
    use, the logs answer for the new id is 200 with count 0. *)
Theorem new_user_has_empty_log s name oid now _id :
  name <> "" ->
  Mongo.findOne name s = None ->
  references_valid s ->
  (forall u, In u (users s) -> User._id u <> oid) ->
  castObjectId _id = Some oid ->
  fst (run (getLogs _id None None None)
         (snd (run (createOrGetUser (Some name) oid now) s)))
  = Responded (json (LogsBody name 0 oid [])).
Proof.
  intros Hn Hnew Hrefs Hfresh Hc.
  rewrite run_createOrGetUser, truthy_name by exact Hn.
  cbn [negb text]. rewrite Hnew. cbn [snd].
  rewrite run_getLogs.
  assert (Hf : Mongo.findById _id (add_user (new_user (Some name) oid now) s)
               = inr (Some (new_user (Some name) oid now))).
  { unfold Mongo.findById. rewrite Hc. cbn [users add_user].
    rewrite find_app_none.
    - cbn. unfold Mongo.has_id. cbn. now rewrite N.eqb_refl.
    - destruct (find (Mongo.has_id oid) (users s)) as [u|] eqn:Hfind;
        [|reflexivity].
      apply find_some in Hfind as [Hin Hid]. apply N.eqb_eq in Hid.
      now destruct (Hfresh u Hin). }
  rewrite Hf, (findExercises_unfiltered _ _ _ Hc). cbn [exercises add_user].
  rewrite filter_none_in; [reflexivity|].
  intros e Hin. destruct (Mongo.owned_by oid e) eqn:Ho; [|reflexivity].
  exfalso. apply N.eqb_eq in Ho.
  unfold references_valid in Hrefs. rewrite Forall_forall in Hrefs.
  destruct (Hrefs e Hin) as (u & Hu & Hid).
  apply (Hfresh u Hu). congruence.
Qed.

Lemma formatted_not_invalid str :
  display_formatted str -> str <> "Invalid Date".
Proof.
  intros (wd & mo & day & sign & yr & Hwd & _ & _ & _ & _ & _ & _ & ->).
  cbn in Hwd.
  repeat (destruct Hwd as [<- | Hwd]; [cbn; discriminate|]).
  destruct Hwd.
Qed.

(** X20.  No answer shows "Invalid Date": the date of the exercise a
    post answers with is never that string, and when the stored dates are
    valid no entry of a logs answer has it. *)
Theorem answers_never_show_invalid_date s :
  (forall _id description duration date eid now id u d n ds,
     fst (run (appendExercise _id description duration date eid now) s)
       = Responded (json (ExerciseBody id u d n ds)) ->
     ds <> "Invalid Date") /\
  (dates_valid s ->
   forall _id from to limit log,
     log_of (fst (run (getLogs _id from to limit) s)) = Some log ->
     Forall (fun entry => log_date entry <> "Invalid Date") log).
Proof.
  split.
  - intros _id description duration date eid now id u d n ds Hr.
    destruct (appendExercise_ok s _id description duration date eid now
                (json (ExerciseBody id u d n ds))
                (snd (run (appendExercise _id description duration date
                             eid now) s)))
      as (user & _ & Hv & Hview & _);
      [rewrite <- Hr; apply surjective_pairing|reflexivity|].
    unfold Mongo.exercise_valid in Hv. apply andb_prop in Hv as [_ Hv].
    injection Hview as _ _ _ _ ->. unfold toDateStringSafe.
    cbn [Exercise.date new_exercise] in Hv |- *.
    destruct (exerciseDate date now) as [t|]; [|discriminate].
    apply formatted_not_invalid, toDateString_formatted.
  - intros Hvalid _id from to limit log. rewrite run_getLogs.
    destruct (Mongo.findById _id s) as [|[user|]]; try discriminate.
    destruct (Mongo.findExercises _ _ _ s) as [|docs] eqn:Hq;
      [discriminate|].
    cbn. intros [= <-]. apply Forall_forall. intros entry Hentry.
    apply in_map_iff in Hentry as (e & <- & He).
    apply (findExercises_incl _ _ _ _ _ Hq) in He.
    unfold dates_valid in Hvalid. rewrite Forall_forall in Hvalid.
    specialize (Hvalid e He). cbn. unfold toDateStringSafe.
    destruct (Exercise.date e) as [t|]; [|discriminate].
    apply formatted_not_invalid, toDateString_formatted.
Qed.

End StoredDocuments.

(* ================================================================== *)
(** ** These properties at work on the concrete store *)

Section MoreOnNode.

#[local] Existing Instance Node.utc.


Lemma sample_references_valid : references_valid Sample.store.
Proof.
  repeat constructor; exists Sample.alice; split;
    solve [now left | reflexivity].
Qed.


Lemma bob_is_a_name : "bob" <> "".
Proof. discriminate. Qed.

Lemma createOrGetUser_missing_username_witness :
  (Some "" = None \/ Some "" = Some "") /\
  run_with [[InsertUser Sample.alice]] (createOrGetUser (Some "") 2%N 7)
           empty_store
  = (username_required, empty_store).
Proof.
  assert (Hmissing : Some "" = None \/ Some "" = Some "") by now right.
  split; [exact Hmissing|].
  exact (createOrGetUser_missing_username [[InsertUser Sample.alice]]
           empty_store (Some "") 2%N 7 Hmissing).
Defined.


Lemma createOrGetUser_answers_stored_record_witness :
  exists u,
    Mongo.findOne "bob"
      (snd (run_with [] (createOrGetUser (Some "bob") 2%N 7) Sample.store))
      = Some u /\
    fst (run_with [] (createOrGetUser (Some "bob") 2%N 7) Sample.store)
      = Responded (json (UserBody "bob" (User._id u))).
Proof.
  exact (createOrGetUser_answers_stored_record [] Sample.store "bob" 2%N 7
           bob_is_a_name).
Defined.

Lemma createOrGetUser_same_id_under_schedules_witness :
  let rival := {| User._id := 9%N; User.username := "bob";
                  User.createdAt := 6; User.updatedAt := 6 |} in
  let first :=
    run_with [[]; [InsertUser rival]]
             (createOrGetUser (Some "bob") 2%N 7) Sample.store in
  fst first = Responded (json (UserBody "bob" 9%N)) /\
  fst (run_with [] (createOrGetUser (Some "bob") 3%N 8) (snd first))
    = fst first.
Proof.
  intros rival first. split; [reflexivity|].
  exact (createOrGetUser_same_id_under_schedules
           [[]; [InsertUser rival]] [] Sample.store "bob" 2%N 7 3%N 8
           bob_is_a_name).
Defined.

Lemma posted_exercise_ends_the_log_witness :
  let after :=
    snd (run (appendExercise Sample.alice_id (Some "swim") (Str "45")
                (Some "2023-06-15") 16%N 99) Sample.store) in
  exists user docs doc,
    run (getLogs Sample.alice_id None None None) Sample.store
      = (logs_view user docs, Sample.store) /\
    run (getLogs Sample.alice_id None None None) after
      = (logs_view user (docs ++ [doc]), after).
Proof.
  intros after.
  edestruct (posted_exercise_ends_the_log Sample.store Sample.alice_id
               (Some "swim") (Str "45") (Some "2023-06-15") 16%N 99)
    as (user & docs & doc & Hbefore & Hafter & _).
  - vm_compute. reflexivity.
  - reflexivity.
  - exists user, docs, doc. split; [exact Hbefore|exact Hafter].
Defined.

Lemma post_leaves_other_logs_witness :
  fst (run (getLogs Sample.alice_id None None None)
         (snd (run (appendExercise Sample.unknown_id (Some "swim") (Str "45")
                      None 16%N 99) Sample.store)))
  = fst (run (getLogs Sample.alice_id None None None) Sample.store).
Proof.
  apply (post_leaves_other_logs Sample.store Sample.unknown_id (Some "swim")
           (Str "45") None 16%N 99 Sample.alice_id 2%N 1%N);
    [reflexivity|reflexivity|discriminate].
Defined.

Lemma logs_belong_to_user_witness :
  exists user docs,
    Mongo.findById Sample.alice_id Sample.store = inr (Some user) /\
    Forall (fun e => In e (exercises Sample.store) /\
                     Exercise.userId e = User._id user) docs /\
    2%nat = List.length docs.
Proof.
  edestruct (logs_belong_to_user Sample.store Sample.alice_id
               (Some "2023-02-01") None (Some "2"))
    as (user & docs & Hf & Hbody & Hown).
  - vm_compute. reflexivity.
  - reflexivity.
  - exists user, docs. split; [exact Hf|split; [exact Hown|]].
    cbn [body] in Hbody. now injection Hbody as _ Hlen _ _.
Defined.

Lemma getLogs_empty_range_witness :
  run (getLogs Sample.alice_id (Some "2023-05-01") (Some "2023-02-01") None)
      Sample.store
  = (Responded (json (LogsBody "alice" 0 1%N [])), Sample.store).
Proof.
  refine (proj1 (getLogs_empty_range Sample.store Sample.alice_id
                   (Some "2023-05-01") (Some "2023-02-01") None Sample.alice
                   1682899200000 1675209600000 sample_alice _ _ _));
    reflexivity.
Defined.

Lemma getLogs_limit_not_reached_witness :
  positive_limit (Some "9") 9 /\
  run (getLogs Sample.alice_id None None (Some "9")) Sample.store
  = run (getLogs Sample.alice_id None None None) Sample.store.
Proof.
  assert (Hlim : positive_limit (Some "9") 9).
  { split; [reflexivity|]. exists 9. repeat split; lia. }
  split; [exact Hlim|].
  refine (getLogs_limit_not_reached Sample.store Sample.alice_id None None
            (Some "9") (exercises Sample.store) 9 _ Hlim _).
  - reflexivity.
  - vm_compute. lia.
Defined.

Lemma getLogs_unknown_user_witness :
  ~ refers_to_user "abc" Sample.store /\
  run (getLogs "abc" None None None) Sample.store
  = (server_error, Sample.store).
Proof.
  assert (Hno : ~ refers_to_user "abc" Sample.store).
  { intros [u [_ Hc]]. discriminate Hc. }
  split; [exact Hno|].
  exact (getLogs_unknown_user Sample.store "abc" None None None Hno).
Defined.

Lemma exercises_keep_their_users_witness :
  references_valid Sample.store /\
  references_valid
    (serve_all [PostUser (Some "bob") 2%N 7;
                PostExercise Sample.unknown_id (Some "swim") (Str "45")
                  None 16%N 99] Sample.store).
Proof.
  split; [exact sample_references_valid|].
  exact (exercises_keep_their_users _ Sample.store sample_references_valid).
Defined.


Lemma appendExercise_non_numeric_duration_witness :
  isNaN (Number (Str "abc")) = true /\
  run (appendExercise Sample.alice_id (Some "swim") (Str "abc") None 16%N 99)
      Sample.store
  = (server_error, Sample.store).
Proof.
  assert (Hnan : isNaN (Number (Str "abc")) = true) by reflexivity.
  split; [exact Hnan|].
  exact (appendExercise_non_numeric_duration Sample.store Sample.alice_id
           (Some "swim") (Str "abc") None 16%N 99 Sample.alice
           eq_refl eq_refl Hnan sample_alice).
Defined.

Lemma appendExercise_string_duration_witness :
  exists doc,
    Exercise.duration doc = of_Z 0 /\
    run (appendExercise Sample.alice_id (Some "rest") (Str "0") None 16%N 99)
        Sample.store
    = (exercise_view Sample.alice doc, add_exercise doc Sample.store).
Proof.
  assert (Hl : "0" <> "") by discriminate.
  assert (Hq : StringToNumber "0" = Finite (inject_Z 0)) by reflexivity.
  assert (Ht : exerciseDate None 99 = Some 99) by reflexivity.
  eexists. split;
    [|exact (appendExercise_string_duration Sample.store Sample.alice_id
               (Some "rest") "0" (inject_Z 0) None 16%N 99 Sample.alice 99
               eq_refl Hl Hq sample_alice Ht)].
  reflexivity.
Defined.

Lemma created_user_is_listed_witness :
  exists id l,
    fst (run_with [] (createOrGetUser (Some "bob") 2%N 7) Sample.store)
      = Responded (json (UserBody "bob" id)) /\
    fst (run listUsers
           (snd (run_with [] (createOrGetUser (Some "bob") 2%N 7)
                   Sample.store)))
      = Responded (json (UsersBody l)) /\
    In ("bob", id) l.
Proof.
  exact (created_user_is_listed [] Sample.store "bob" 2%N 7 bob_is_a_name).
Defined.

Lemma new_user_has_empty_log_witness :
  fst (run (getLogs Sample.unknown_id None None None)
         (snd (run (createOrGetUser (Some "bob") 2%N 7) Sample.store)))
  = Responded (json (LogsBody "bob" 0 2%N [])).
Proof.
  apply (new_user_has_empty_log Sample.store "bob" 2%N 7 Sample.unknown_id
           bob_is_a_name eq_refl sample_references_valid).
  - intros u [<-|[]]. discriminate.
  - reflexivity.
Defined.

Lemma answers_never_show_invalid_date_witness :
  dates_valid Sample.store /\
  forall log,
    log_of (fst (run (getLogs Sample.alice_id None None None) Sample.store))
      = Some log ->
    Forall (fun entry => log_date entry <> "Invalid Date") log.
Proof.
  assert (Hvalid : dates_valid Sample.store)
    by exact (served_dates_valid Sample.requests).
  split; [exact Hvalid|].
  exact (proj2 (answers_never_show_invalid_date Sample.store) Hvalid
           Sample.alice_id None None None).
Defined.

Lemma logs_count_is_log_length_witness :
  exists log,
    run (getLogs Sample.alice_id (Some "2023-02-01") None (Some "3"))
        Sample.store
    = (Responded (json (LogsBody "alice" 3 1%N log)), Sample.store) /\
    3%nat = List.length log.
Proof.
  eexists. split; [vm_compute; reflexivity|].
  eapply (logs_count_is_log_length Sample.store Sample.alice_id
            (Some "2023-02-01") None (Some "3")).
  vm_compute. reflexivity.
Defined.

End MoreOnNode.
